(** * aruco_ros2: the ArUco detection node

    A shallow embedding of [src/aruco_ros2/src/aruco_ros2.cpp] and the
    properties of its start-up, calibration and per-frame pipeline.

    Conventions of the embedding.
    - A C++ [double] is a binary64 primitive float; every arithmetic
      operation is written out in the order the code performs it.
    - A callback is a function from the node's fields, the incoming
      message and the answers of the outside world (clock, cv_bridge,
      OpenCV, the tf buffer) to the trace of observable events it emits.
    - An access outside a container is never given a value: the callback
      ends in a fault at that point.
    - A [cv::Mat] built over memory it does not own is an address, not a
      copy: what a later read finds there is an answer of the outside
      world.
    - A [double] passed where the callee takes a [float] is rounded to
      binary32 at the call. *)

From Stdlib Require Import ZArith String List Bool Floats DecimalString DecimalPos DecimalZ Lia.
From stdpp Require Import base option list gmap strings.

Local Open Scope string_scope.
Local Open Scope list_scope.

(** ** Plain data shared by the message types *)

(** [builtin_interfaces/Time]. *)
Record Time := mkTime { sec : Z; nanosec : Z }.

(** [std_msgs/Header]. *)
Record Header := mkHeader { stamp : Time; frame_id : string }.

(** Three doubles: [geometry_msgs/Vector3], [geometry_msgs/Point],
    [tf2::Vector3] and one CV_64FC3 matrix element all have this shape,
    and the conversions between them copy the components. *)
Record Vector3 := mkVector3 { vx : float; vy : float; vz : float }.

(** [geometry_msgs/Quaternion] and [tf2::Quaternion]. *)
Record Quaternion := mkQuaternion { qx : float; qy : float; qz : float; qw : float }.

(** A 3x3 matrix of doubles, row-major: the output of [cv::Rodrigues]
    and [tf2::Matrix3x3]. *)
Record Matrix3x3 := mkMatrix3x3 {
  m00 : float; m01 : float; m02 : float;
  m10 : float; m11 : float; m12 : float;
  m20 : float; m21 : float; m22 : float }.

(** [geometry_msgs/Transform], [TransformStamped] and [Pose]. *)
Module geometry_msgs.

Record Transform := mkTransform { translation : Vector3; rotation : Quaternion }.

Record TransformStamped := mkTransformStamped {
  header : Header; child_frame_id : string; transform : Transform }.

Record Pose := mkPose { position : Vector3; orientation : Quaternion }.

End geometry_msgs.

(** Modelled from the spec: the message definitions of [aruco_ros2_msgs]
    ([Marker], [MarkerArray]) are not among the sources; the fields are the
    ones [image_callback] assigns, which are those of the spec's
    MarkerRecord (id, world pose, pixel position, timestamp, root frame). *)
Record Marker := mkMarker {
  mk_header : Header; mk_id : Z; mk_pose : geometry_msgs.Pose; pixel_x : float; pixel_y : float }.

Record MarkerArray := mkMarkerArray { ma_header : Header; markers : list Marker }.

(** [std::array<double, 9>], the intrinsic matrix [k] of a CameraInfo. *)
Record Array9 := mkArray9 {
  k0 : float; k1 : float; k2 : float; k3 : float; k4 : float;
  k5 : float; k6 : float; k7 : float; k8 : float }.

(** Where a buffer of doubles lives. *)
Definition Address : Type := nat.

(** [sensor_msgs/CameraInfo], the fields the node reads. [k_data] is
    [msg->k.data()]: the place of the nine doubles of [k] inside the
    message object, for as long as the message exists. *)
Record CameraInfo := mkCameraInfo {
  ci_header : Header; width : Z; height : Z;
  k : Array9; k_data : Address; d : list float }.

(** The conversion of a [double] to a [float] argument: the nearest
    binary32 value, ties to even, overflow to infinity; the result is
    held as the binary64 number it denotes. Zeros, infinities and NaN are
    kept. *)
Definition narrow (x : float) : float :=
  match Prim2SF x with
  | S754_finite s m e => SF2Prim (SpecFloat.binary_round 24 128 s m e)
  | _ => x
  end.

(** [std::to_string(int)]: decimal digits, a leading minus sign for
    negative values. *)
Definition to_string (n : Z) : string := NilZero.string_of_int (Z.to_int n).

(** ** OpenCV data *)
Module cv.

Record Point2f := mkPoint2f { px : float; py : float }.

(** One row of the N x 1 CV_64FC3 matrices filled by the pose
    estimator: either an empty header or three doubles. A list of rows
    is read row by row, as [rvecs.row(i)] does; the lists that are the
    rows of one matrix are the [one_matrix] ones. *)
Abbreviation Row := (option Vector3) (only parsing).

Definition empty (r : Row) : bool := if r is None then true else false.

(** The rows of one [cv::Mat] have its number of columns: all of them
    are empty or none is. *)
Definition one_matrix (rows : list Row) : Prop :=
  Forall (λ r, empty r = true) rows ∨ Forall (λ r, empty r = false) rows.

(** A matrix of doubles with one row ([cv::Mat(1, n, CV_64F)]) or with
    3x3 entries stored row-major. *)
Abbreviation Mat := (list float) (only parsing).

(** [cv::Mat::zeros(1, n, CV_64F)]. *)
Definition zeros (n : nat) : Mat := replicate n 0%float.

(** [cv::Mat(1, n, CV_64F)]: n cells whose contents are whatever the
    allocation holds ([garbage]). *)
Definition uninitialized (garbage : nat -> float) (n : nat) : Mat :=
  garbage <$> seq 0 n.

(** [m.at<double>(0, i) = v]; outside the row there is no cell to write. *)
Definition set_at (m : Mat) (i : nat) (v : float) : option Mat :=
  if decide (i < length m)%nat then Some (<[i := v]> m) else None.

(** A matrix header that owns no data: the default-constructed
    [cv::Mat()], and [cv::Mat(3, 3, CV_64F, data)], which keeps the
    pointer it is given and copies nothing. *)
Inductive MatHeader :=
| no_data
| header_over (data : Address).

Inductive PREDEFINED_DICTIONARY_NAME :=
| DICT_4X4_50 | DICT_4X4_100 | DICT_4X4_250 | DICT_4X4_1000
| DICT_5X5_50 | DICT_5X5_100 | DICT_5X5_250 | DICT_5X5_1000
| DICT_6X6_50 | DICT_6X6_100 | DICT_6X6_250 | DICT_6X6_1000
| DICT_7X7_50 | DICT_7X7_100 | DICT_7X7_250 | DICT_7X7_1000
| DICT_ARUCO_ORIGINAL
| DICT_APRILTAG_16h5 | DICT_APRILTAG_25h9
| DICT_APRILTAG_36h10 | DICT_APRILTAG_36h11.

End cv.

(** ** The tf2 linear algebra the callback calls

    tf2 is a library the node links against; the operations below follow
    its LinearMath headers ([Vector3.h], [Quaternion.h], [Matrix3x3.h],
    [Transform.h]) and [tf2_geometry_msgs], one floating-point operation
    per operation of the header. *)
Module tf2.

Record Transform := mkTransform { m_basis : Matrix3x3; m_origin : Vector3 }.

(** [Vector3::dot]. *)
Definition dot (a b : Vector3) : float :=
  (vx a * vx b + vy a * vy b + vz a * vz b)%float.

Definition row0 (m : Matrix3x3) : Vector3 := mkVector3 (m00 m) (m01 m) (m02 m).
Definition row1 (m : Matrix3x3) : Vector3 := mkVector3 (m10 m) (m11 m) (m12 m).
Definition row2 (m : Matrix3x3) : Vector3 := mkVector3 (m20 m) (m21 m) (m22 m).

(** [Matrix3x3::tdotx], [tdoty], [tdotz]: a column of the matrix
    against a vector. *)
Definition tdotx (m : Matrix3x3) (v : Vector3) : float :=
  (m00 m * vx v + m10 m * vy v + m20 m * vz v)%float.
Definition tdoty (m : Matrix3x3) (v : Vector3) : float :=
  (m01 m * vx v + m11 m * vy v + m21 m * vz v)%float.
Definition tdotz (m : Matrix3x3) (v : Vector3) : float :=
  (m02 m * vx v + m12 m * vy v + m22 m * vz v)%float.

(** [operator*(const Matrix3x3&, const Matrix3x3&)]. *)
Definition Matrix3x3_mul (a b : Matrix3x3) : Matrix3x3 :=
  mkMatrix3x3
    (tdotx b (row0 a)) (tdoty b (row0 a)) (tdotz b (row0 a))
    (tdotx b (row1 a)) (tdoty b (row1 a)) (tdotz b (row1 a))
    (tdotx b (row2 a)) (tdoty b (row2 a)) (tdotz b (row2 a)).

(** [Quaternion::length2]. *)
Definition length2 (q : Quaternion) : float :=
  (qx q * qx q + qy q * qy q + qz q * qz q + qw q * qw q)%float.

(** [Matrix3x3::setRotation(q)]. *)
Definition setRotation (q : Quaternion) : Matrix3x3 :=
  let d := length2 q in
  let s := (2 / d)%float in
  let xs := (qx q * s)%float in
  let ys := (qy q * s)%float in
  let zs := (qz q * s)%float in
  let wx := (qw q * xs)%float in
  let wy := (qw q * ys)%float in
  let wz := (qw q * zs)%float in
  let xx := (qx q * xs)%float in
  let xy := (qx q * ys)%float in
  let xz := (qx q * zs)%float in
  let yy := (qy q * ys)%float in
  let yz := (qy q * zs)%float in
  let zz := (qz q * zs)%float in
  mkMatrix3x3
    (1 - (yy + zz))%float (xy - wz)%float (xz + wy)%float
    (xy + wz)%float (1 - (xx + zz))%float (yz - wx)%float
    (xz - wy)%float (yz + wx)%float (1 - (xx + yy))%float.

(** [Matrix3x3::getRotation(q)]: the branch on the trace, then on the
    largest diagonal entry. *)
Definition getRotation (m : Matrix3x3) : Quaternion :=
  let trace := (m00 m + m11 m + m22 m)%float in
  if (0 <? trace)%float then
    let s := PrimFloat.sqrt (trace + 1)%float in
    let w := (s * 0.5)%float in
    let s' := (0.5 / s)%float in
    mkQuaternion ((m21 m - m12 m) * s')%float ((m02 m - m20 m) * s')%float
                 ((m10 m - m01 m) * s')%float w
  else if (m00 m <? m11 m)%float then
    if (m11 m <? m22 m)%float then
      (* i = 2, j = 0, k = 1 *)
      let s := PrimFloat.sqrt (m22 m - m00 m - m11 m + 1)%float in
      let s' := (0.5 / s)%float in
      mkQuaternion ((m02 m + m20 m) * s')%float ((m12 m + m21 m) * s')%float
                   (s * 0.5)%float ((m10 m - m01 m) * s')%float
    else
      (* i = 1, j = 2, k = 0 *)
      let s := PrimFloat.sqrt (m11 m - m22 m - m00 m + 1)%float in
      let s' := (0.5 / s)%float in
      mkQuaternion ((m01 m + m10 m) * s')%float (s * 0.5)%float
                   ((m21 m + m12 m) * s')%float ((m02 m - m20 m) * s')%float
  else if (m00 m <? m22 m)%float then
    let s := PrimFloat.sqrt (m22 m - m00 m - m11 m + 1)%float in
    let s' := (0.5 / s)%float in
    mkQuaternion ((m02 m + m20 m) * s')%float ((m12 m + m21 m) * s')%float
                 (s * 0.5)%float ((m10 m - m01 m) * s')%float
  else
    (* i = 0, j = 1, k = 2 *)
    let s := PrimFloat.sqrt (m00 m - m11 m - m22 m + 1)%float in
    let s' := (0.5 / s)%float in
    mkQuaternion (s * 0.5)%float ((m10 m + m01 m) * s')%float
                 ((m20 m + m02 m) * s')%float ((m21 m - m12 m) * s')%float.

(** [tf2::fromMsg(const geometry_msgs::msg::Transform&, tf2::Transform&)]:
    the origin is copied, the basis is set from the quaternion. *)
Definition fromMsg (t : geometry_msgs.Transform) : Transform :=
  mkTransform (setRotation (geometry_msgs.rotation t)) (geometry_msgs.translation t).

(** [Transform::operator()(const Vector3&)]. *)
Definition apply (t : Transform) (x : Vector3) : Vector3 :=
  mkVector3 (dot (row0 (m_basis t)) x + vx (m_origin t))%float
            (dot (row1 (m_basis t)) x + vy (m_origin t))%float
            (dot (row2 (m_basis t)) x + vz (m_origin t))%float.

(** [Transform::operator*(const Transform&)]. *)
Definition mul (a b : Transform) : Transform :=
  mkTransform (Matrix3x3_mul (m_basis a) (m_basis b)) (apply a (m_origin b)).

Definition getOrigin (t : Transform) : Vector3 := m_origin t.

(** [Transform::getRotation()]. *)
Definition Transform_getRotation (t : Transform) : Quaternion :=
  getRotation (m_basis t).

End tf2.

(** ** Events, exceptions and the outside world *)

Inductive Severity := INFO | WARN | ERROR.

(** The arguments of a printf-style log call, in order. *)
Inductive LogArg :=
| ArgString (s : string)
| ArgInt (n : Z)
| ArgDouble (x : float).

Inductive Exception :=
| invalid_argument (what : string)
| cv_bridge_Exception (what : string)
| tf2_TransformException (what : string).

Definition newline : string := String (Ascii.ascii_of_nat 10) EmptyString.
Definition tab : string := String (Ascii.ascii_of_nat 9) EmptyString.

Section Node.

(** The pixel buffer of an image ([cv::Mat] and the payload of a
    [sensor_msgs/Image]); the node never looks inside it. *)
Variable Image : Type.

(** [sensor_msgs/Image]. *)
Record ImageMsg := mkImageMsg { im_header : Header; encoding : string; data : Image }.

(** What the node does to the outside world, in program order. *)
Inductive Event :=
| Log (sev : Severity) (format : string) (args : list LogArg)
| CreateSubscription (topic : string)
| CreatePublisher (topic : string)
| CreateTransformBroadcaster
| SendTransform (t : geometry_msgs.TransformStamped)
| PublishImage (m : ImageMsg)
| PublishMarkerArray (m : MarkerArray).

(** The answers of the collaborators during one callback. *)
Record World := mkWorld {
  (** [this->get_clock()->now()]: the n-th reading of the callback. *)
  now : nat -> Time;
  (** [cv_bridge::toCvCopy(msg, BGR8)]: the BGR8 copy, or the [what()]
      of the [cv_bridge::Exception] it throws. *)
  toCvCopy : ImageMsg -> string + Image;
  (** [cv::aruco::detectMarkers]: [marker_corners] and [marker_ids]. *)
  detectMarkers :
    Image -> cv.PREDEFINED_DICTIONARY_NAME -> list (list cv.Point2f) * list Z;
  (** [cv::aruco::estimatePoseSingleMarkers]: [rvecs] and [tvecs]. *)
  estimatePoseSingleMarkers :
    list (list cv.Point2f) -> float -> cv.Mat -> cv.Mat -> list cv.Row * list cv.Row;
  Rodrigues : Vector3 -> Matrix3x3;
  drawAxis : Image -> cv.Mat -> cv.Mat -> Vector3 -> Vector3 -> float -> Image;
  (** The nine doubles found at an address the n-th time the callback
      hands OpenCV a 3x3 header over it: the [k] of the message that
      lives there, whatever the allocator left or put there once that
      message is released. *)
  memory : nat -> Address -> cv.Mat;
  (** [tf_buffer_.lookupTransform(target, source, tf2::TimePointZero)]
      as answered while marker [i] is processed: the transform, or the
      [what()] of the [tf2::TransformException] it throws. *)
  lookupTransform :
    nat -> string -> string -> string + geometry_msgs.TransformStamped }.

(** ** The node's fields *)

Record ArucoRos2Node := mkNode {
  marker_size_ : float;
  camera_frame_ : string;
  image_topic_ : string;
  camera_info_topic_ : string;
  dictionary_ : string;
  (** [cv::Ptr<cv::aruco::Dictionary>], null until [initialize] sets it. *)
  aruco_dict_ : option cv.PREDEFINED_DICTIONARY_NAME;
  (** Line 73 makes this a header over the calibration message. *)
  camera_matrix_ : cv.MatHeader;
  camera_distortion_ : cv.Mat;
  received_camera_info_ : bool }.

Definition set_aruco_dict (n : ArucoRos2Node) (v : cv.PREDEFINED_DICTIONARY_NAME) :=
  mkNode (marker_size_ n) (camera_frame_ n) (image_topic_ n) (camera_info_topic_ n)
         (dictionary_ n) (Some v) (camera_matrix_ n) (camera_distortion_ n)
         (received_camera_info_ n).

Definition set_camera_matrix (n : ArucoRos2Node) (v : cv.MatHeader) :=
  mkNode (marker_size_ n) (camera_frame_ n) (image_topic_ n) (camera_info_topic_ n)
         (dictionary_ n) (aruco_dict_ n) v (camera_distortion_ n)
         (received_camera_info_ n).

Definition set_camera_distortion (n : ArucoRos2Node) (v : cv.Mat) :=
  mkNode (marker_size_ n) (camera_frame_ n) (image_topic_ n) (camera_info_topic_ n)
         (dictionary_ n) (aruco_dict_ n) (camera_matrix_ n) v
         (received_camera_info_ n).

Definition set_received_camera_info (n : ArucoRos2Node) (v : bool) :=
  mkNode (marker_size_ n) (camera_frame_ n) (image_topic_ n) (camera_info_topic_ n)
         (dictionary_ n) (aruco_dict_ n) (camera_matrix_ n) (camera_distortion_ n) v.

(** [camera_matrix_] as OpenCV reads it during a frame, for the
    [nth] time: through the header, from the place it points to. *)
Definition read_camera_matrix (W : World) (n : ArucoRos2Node) (nth : nat) : cv.Mat :=
  match camera_matrix_ n with
  | cv.no_data => []
  | cv.header_over data => memory W nth data
  end.

(** ** Construction and start-up *)

(** The five parameters after [declare_parameter] / [get_parameter]. *)
Record Parameters := mkParameters {
  p_marker_size : float;
  p_camera_frame : string;
  p_image_topic : string;
  p_camera_info_topic : string;
  p_dictionary : string }.

(** The declared defaults; the literal is the binary64 value of 0.1. *)
Definition default_parameters : Parameters :=
  mkParameters 0x1.999999999999ap-4%float "camera_rgb_optical_frame" "/camera/color/image_raw"
               "/camera/color/camera_info" "DICT_4X4_1000".

(** The constructor, lines 21-40. *)
Definition construct (p : Parameters) : ArucoRos2Node * list Event :=
  (mkNode (p_marker_size p) (p_camera_frame p) (p_image_topic p)
          (p_camera_info_topic p) (p_dictionary p) None cv.no_data [] false,
   [ Log INFO "marker_size: %f" [ArgDouble (p_marker_size p)];
     Log INFO "camera_frame: %s" [ArgString (p_camera_frame p)];
     Log INFO "image_topic: %s" [ArgString (p_image_topic p)];
     Log INFO "camera_info_topic: %s" [ArgString (p_camera_info_topic p)];
     Log INFO "dictionary: %s" [ArgString (p_dictionary p)] ]).

(** The table of [dictNameToEnum], lines 263-285, in source order. *)
Definition dict_name_table : list (string * cv.PREDEFINED_DICTIONARY_NAME) :=
  [ ("DICT_4X4_50", cv.DICT_4X4_50);
    ("DICT_4X4_100", cv.DICT_4X4_100);
    ("DICT_4X4_250", cv.DICT_4X4_250);
    ("DICT_4X4_1000", cv.DICT_4X4_1000);
    ("DICT_5X5_50", cv.DICT_5X5_50);
    ("DICT_5X5_100", cv.DICT_5X5_100);
    ("DICT_5X5_250", cv.DICT_5X5_250);
    ("DICT_5X5_1000", cv.DICT_5X5_1000);
    ("DICT_6X6_50", cv.DICT_6X6_50);
    ("DICT_6X6_100", cv.DICT_6X6_100);
    ("DICT_6X6_250", cv.DICT_6X6_250);
    ("DICT_6X6_1000", cv.DICT_6X6_1000);
    ("DICT_7X7_50", cv.DICT_7X7_50);
    ("DICT_7X7_100", cv.DICT_7X7_100);
    ("DICT_7X7_250", cv.DICT_7X7_250);
    ("DICT_7X7_1000", cv.DICT_7X7_1000);
    ("DICT_ARUCO_ORIGINAL", cv.DICT_ARUCO_ORIGINAL);
    ("DICT_APRILTAG_16h5", cv.DICT_APRILTAG_16h5);
    ("DICT_APRILTAG_25h9", cv.DICT_APRILTAG_25h9);
    ("DICT_APRILTAG_36h10", cv.DICT_APRILTAG_36h10);
    ("DICT_APRILTAG_36h11", cv.DICT_APRILTAG_36h11) ].

(** The [std::unordered_map] built from the table. *)
Definition dict_name_map : gmap string cv.PREDEFINED_DICTIONARY_NAME :=
  list_to_map dict_name_table.

(** [dictNameToEnum], lines 261-294. *)
Definition dictNameToEnum (dict_name : string)
  : Exception + cv.PREDEFINED_DICTIONARY_NAME :=
  match dict_name_map !! dict_name with
  | Some e => inr e
  | None => inl (invalid_argument "Invalid dictionary")
  end.

(** [initialize], lines 42-68: the subscriptions, publishers and the
    broadcaster are created first, the dictionary is resolved last. *)
Definition initialize (node : ArucoRos2Node)
  : list Event * (Exception + ArucoRos2Node) :=
  let created :=
    [ Log INFO "Initializing." [];
      CreateSubscription (image_topic_ node);
      CreatePublisher "aruco_marker_info";
      CreatePublisher "/aruco/markers";
      CreateSubscription (camera_info_topic_ node);
      CreatePublisher "/aruco/result";
      CreateTransformBroadcaster ] in
  match dictNameToEnum (dictionary_ node) with
  | inl e => (created, inl e)
  | inr dict => (created, inr (set_aruco_dict node dict))
  end.

(** How [main] leaves start-up: it reaches [rclcpp::spin] with an
    initialized node, or the exception of [initialize] leaves [main]
    uncaught and the process terminates without dispatching a callback. *)
Inductive Startup :=
| Spinning (node : ArucoRos2Node)
| Terminated (e : Exception).

(** [main], lines 327-335, up to the call of [rclcpp::spin]. *)
Definition main (p : Parameters) : list Event * Startup :=
  let '(node, built) := construct p in
  match initialize node with
  | (created, inl e) => (built ++ created, Terminated e)
  | (created, inr node') => (built ++ created, Spinning node')
  end.

(** ** [camera_info_callback], lines 71-98 *)

(** The loop of lines 78-81 with [n] iterations left, at index [i]:
    [camera_distortion_.at<double>(0, i) = msg->d[i]]. *)
Fixpoint copy_distortion (n i : nat) (d : list float) (m : cv.Mat) : option cv.Mat :=
  match n with
  | O => Some m
  | S n' =>
    v ← d !! i;
    m' ← cv.set_at m i v;
    copy_distortion n' (S i) d m'
  end.

(** Lines 73-82: the intrinsic matrix becomes a header over the [k] of
    the message, the distortion row is allocated and filled. [None]
    stands for an access outside [msg->d] or outside the freshly
    allocated row. *)
Definition store_calibration (garbage : nat -> float)
    (node : ArucoRos2Node) (msg : CameraInfo) : option ArucoRos2Node :=
  let node := set_camera_matrix node (cv.header_over (k_data msg)) in
  let node := set_camera_distortion node (cv.zeros 4) in
  match d msg with
  | [] => Some node
  | _ :: _ =>
    let size := length (d msg) in
    set_camera_distortion node
      <$> copy_distortion size 0 (d msg) (cv.uninitialized garbage size)
  end.

Definition camera_info_format : string :=
  "Camera Info:" +:+ newline +:+
  tab +:+ "Width: %d" +:+ newline +:+
  tab +:+ "Height: %d" +:+ newline +:+
  tab +:+ "K (intrinsic matrix): [%f, %f, %f, %f, %f, %f, %f, %f, %f]" +:+ newline +:+
  tab +:+ "D (distortion coefficients): [%f, %f, %f, %f, %f]".

(** How a callback ends: it returns, or it reads outside a container. *)
Inductive Finish := Returned | OutOfBounds.

Record CameraInfoResult := mkCameraInfoResult {
  ci_node : ArucoRos2Node;      (** the fields when the callback ended *)
  ci_events : list Event;
  ci_finish : Finish }.

Definition camera_info_callback (garbage : nat -> float)
    (node : ArucoRos2Node) (msg : CameraInfo) : CameraInfoResult :=
  match store_calibration garbage node msg with
  | None => mkCameraInfoResult node [] OutOfBounds
  | Some node =>
    if received_camera_info_ node then mkCameraInfoResult node [] Returned
    else
      let received := Log INFO "Received camera info." [] in
      (* line 95: msg->d[0] ... msg->d[4], whatever the size of d *)
      match d msg !! 0%nat, d msg !! 1%nat, d msg !! 2%nat,
            d msg !! 3%nat, d msg !! 4%nat with
      | Some d0, Some d1, Some d2, Some d3, Some d4 =>
        mkCameraInfoResult (set_received_camera_info node true)
          [ received;
            Log INFO camera_info_format
              [ ArgInt (width msg); ArgInt (height msg);
                ArgDouble (k0 (k msg)); ArgDouble (k1 (k msg)); ArgDouble (k2 (k msg));
                ArgDouble (k3 (k msg)); ArgDouble (k4 (k msg)); ArgDouble (k5 (k msg));
                ArgDouble (k6 (k msg)); ArgDouble (k7 (k msg)); ArgDouble (k8 (k msg));
                ArgDouble d0; ArgDouble d1; ArgDouble d2; ArgDouble d3; ArgDouble d4 ] ]
          Returned
      | _, _, _, _, _ => mkCameraInfoResult node [received] OutOfBounds
      end
  end.

(** ** [image_callback], lines 101-221 *)

(** Why the marker loop stops before its last index. *)
Inductive Abort :=
| PoseEstimationFailed                  (** lines 137-141: warning, then [return] *)
| TransformLookupFailed (what : string) (** line 171 throws, line 217 catches *)
| Fault.                                (** an access outside a container, a null dictionary *)

Definition marker_frame (id : Z) : string := "aruco_marker_" +:+ to_string id.

(** Lines 143-164: the transform from the camera frame to the marker. *)
Definition make_marker_transform (W : World) (node : ArucoRos2Node)
    (stamp_now : Time) (id : Z) (rvec tvec : Vector3)
  : geometry_msgs.TransformStamped :=
  let rotation_matrix := Rodrigues W rvec in
  let tf_rotation_matrix :=
    mkMatrix3x3
      (m00 rotation_matrix) (m01 rotation_matrix) (m02 rotation_matrix)
      (m10 rotation_matrix) (m11 rotation_matrix) (m12 rotation_matrix)
      (m20 rotation_matrix) (m21 rotation_matrix) (m22 rotation_matrix) in
  let quaternion := tf2.getRotation tf_rotation_matrix in
  geometry_msgs.mkTransformStamped
    (mkHeader stamp_now (camera_frame_ node))
    (marker_frame id)
    (geometry_msgs.mkTransform
       (mkVector3 (vx tvec) (vy tvec) (vz tvec))
       (mkQuaternion (qx quaternion) (qy quaternion) (qz quaternion) (qw quaternion))).

(** Lines 173-186: the pose of the marker in the map frame. *)
Definition compose_marker_pose
    (map_to_camera marker_transform : geometry_msgs.TransformStamped)
  : geometry_msgs.Pose :=
  let tf_map_to_camera := tf2.fromMsg (geometry_msgs.transform map_to_camera) in
  let tf_camera_to_marker := tf2.fromMsg (geometry_msgs.transform marker_transform) in
  let tf_map_to_marker := tf2.mul tf_map_to_camera tf_camera_to_marker in
  geometry_msgs.mkPose
    (mkVector3 (vx (tf2.getOrigin tf_map_to_marker))
               (vy (tf2.getOrigin tf_map_to_marker))
               (vz (tf2.getOrigin tf_map_to_marker)))
    (mkQuaternion (qx (tf2.Transform_getRotation tf_map_to_marker))
                  (qy (tf2.Transform_getRotation tf_map_to_marker))
                  (qz (tf2.Transform_getRotation tf_map_to_marker))
                  (qw (tf2.Transform_getRotation tf_map_to_marker))).

(** One pass through the loop body. *)
Inductive Step :=
| Continue (emitted : list Event) (marker : Marker) (image : Image)
| Stop (emitted : list Event) (why : Abort).

Section Frame.

Variable W : World.
Variable node : ArucoRos2Node.
Variable msg : ImageMsg.
Variable marker_ids : list Z.
Variable marker_corners : list (list cv.Point2f).
Variables rvecs tvecs : list cv.Row.

(** The loop body, lines 133-202, at index [i]. The axis length of
    line 201, [marker_size_ * 0.5f], is a [double] product passed to the
    [float] parameter of [drawAxis]; the camera matrix is handed over for
    the (i + 1)-th time, the first having been the estimator's. *)
Definition process_marker (image : Image) (i : nat) : Step :=
  match rvecs !! i, tvecs !! i with
  | Some rvec, Some tvec =>
    match rvec, tvec with
    | Some rv, Some tv =>
      match marker_ids !! i with
      | Some id =>
        let marker_transform := make_marker_transform W node (now W (S i)) id rv tv in
        let emitted :=
          [ SendTransform marker_transform;
            Log INFO "Detected marker %d" [ArgInt id] ] in
        match lookupTransform W i "map" (camera_frame_ node) with
        | inl what => Stop emitted (TransformLookupFailed what)
        | inr map_to_camera =>
          let marker_pose := compose_marker_pose map_to_camera marker_transform in
          match marker_corners !! i ≫= (λ corners, corners !! 0%nat) with
          | Some corner =>
            Continue emitted
              (mkMarker (mkHeader (stamp (im_header msg)) "map") id marker_pose
                        (cv.px corner) (cv.py corner))
              (drawAxis W image (read_camera_matrix W node (S i))
                        (camera_distortion_ node)
                        rv tv (narrow (marker_size_ node * 0.5)))
          | None => Stop emitted Fault
          end
        end
      | None => Stop [] Fault
      end
    | _, _ =>
      (* tvec.empty() || rvec.empty() *)
      Stop [Log WARN "Pose estimation failed for marker." []] PoseEstimationFailed
    end
  | _, _ => Stop [] Fault
  end.

(** The locals of the callback when the loop is left. *)
Record Loop := mkLoop {
  lp_events : list Event;
  lp_markers : list Marker;     (** [marker_array.markers] *)
  lp_image : Image;
  lp_exit : option Abort }.     (** [None]: the loop ran to its end *)

(** [for (size_t i = ...; i < marker_ids.size(); ++i)] with [n]
    iterations left. *)
Fixpoint marker_loop (n i : nat) (so_far : list Marker) (image : Image) : Loop :=
  match n with
  | O => mkLoop [] so_far image None
  | S n' =>
    match process_marker image i with
    | Stop emitted why => mkLoop emitted so_far image (Some why)
    | Continue emitted marker image' =>
      let rest := marker_loop n' (S i) (so_far ++ [marker]) image' in
      mkLoop (emitted ++ lp_events rest) (lp_markers rest) (lp_image rest) (lp_exit rest)
    end
  end.

End Frame.

(** Lines 119-204: detection, batched pose estimation and the loop.
    [markerLength] is a [float] parameter: [marker_size_] is narrowed at
    the call of line 129. *)
Definition detect_and_locate (W : World) (node : ArucoRos2Node) (msg : ImageMsg)
    (dict : cv.PREDEFINED_DICTIONARY_NAME) (image : Image) : Loop :=
  let '(marker_corners, marker_ids) := detectMarkers W image dict in
  match marker_ids with
  | [] => mkLoop [] [] image None
  | _ :: _ =>
    let '(rvecs, tvecs) :=
      estimatePoseSingleMarkers W marker_corners (narrow (marker_size_ node))
                                (read_camera_matrix W node 0) (camera_distortion_ node) in
    marker_loop W node msg marker_ids marker_corners rvecs tvecs
                (length marker_ids) 0 [] image
  end.

Inductive Outcome :=
| WaitingForCameraInfo          (** line 106 *)
| DecodeFailed (what : string)  (** [cv_bridge::Exception], line 213 *)
| Aborted (why : Abort)         (** the loop was left early *)
| Published.                    (** lines 207-211 were reached *)

Record Callback := mkCallback {
  cb_events : list Event;
  cb_markers : list Marker;   (** [marker_array.markers] when the callback ended *)
  cb_outcome : Outcome }.

(** Lines 206-220: what follows the loop. When it ran to its end the
    image and the marker array are published; the [return] of line 140
    and the exception of line 171 both pass over the two [publish] calls. *)
Definition leave_frame (W : World) (msg : ImageMsg) (r : Loop) : Callback :=
  let marker_array_header := mkHeader (now W 0) "map" in
  match lp_exit r with
  | None =>
    mkCallback
      (lp_events r ++
       [ PublishImage (mkImageMsg (im_header msg) "bgr8" (lp_image r));
         PublishMarkerArray (mkMarkerArray marker_array_header (lp_markers r)) ])
      (lp_markers r) Published
  | Some PoseEstimationFailed =>
    mkCallback (lp_events r) (lp_markers r) (Aborted PoseEstimationFailed)
  | Some (TransformLookupFailed what) =>
    mkCallback (lp_events r ++ [Log WARN "TF2 exception: %s" [ArgString what]])
               (lp_markers r) (Aborted (TransformLookupFailed what))
  | Some Fault => mkCallback (lp_events r) (lp_markers r) (Aborted Fault)
  end.

Definition image_callback (W : World) (node : ArucoRos2Node) (msg : ImageMsg)
  : Callback :=
  if negb (received_camera_info_ node) then
    mkCallback [Log INFO "Waiting for camera info." []] [] WaitingForCameraInfo
  else
    (* line 110 reads the clock for [marker_array.header.stamp]: reading 0 *)
    match toCvCopy W msg with
    | inl what =>
      mkCallback [Log ERROR "CV Bridge exception: %s" [ArgString what]] []
                 (DecodeFailed what)
    | inr image =>
      match aruco_dict_ node with
      | None => mkCallback [] [] (Aborted Fault)
      | Some dict => leave_frame W msg (detect_and_locate W node msg dict image)
      end
    end.

(** ** Reading a trace *)

Definition broadcasts (evs : list Event) : list geometry_msgs.TransformStamped :=
  omap (λ e, if e is SendTransform t then Some t else None) evs.

Definition published_marker_arrays (evs : list Event) : list MarkerArray :=
  omap (λ e, if e is PublishMarkerArray m then Some m else None) evs.

Definition published_images (evs : list Event) : list ImageMsg :=
  omap (λ e, if e is PublishImage m then Some m else None) evs.

Definition subscriptions (evs : list Event) : list string :=
  omap (λ e, if e is CreateSubscription t then Some t else None) evs.

Definition publishers (evs : list Event) : list string :=
  omap (λ e, if e is CreatePublisher t then Some t else None) evs.

Definition warnings (evs : list Event) : list string :=
  omap (λ e, if e is Log WARN f _ then Some f else None) evs.

(** ** Reading the locals of a frame *)

(** The frame reaches the marker loop with these locals: calibration
    received, image decoded, dictionary set, detector and estimator
    answers. *)
Definition observes (W : World) (node : ArucoRos2Node) (msg : ImageMsg)
    (image : Image) (marker_corners : list (list cv.Point2f)) (marker_ids : list Z)
    (rvecs tvecs : list cv.Row) : Prop :=
  received_camera_info_ node = true
  ∧ toCvCopy W msg = inr image
  ∧ (∃ dict, aruco_dict_ node = Some dict
             ∧ detectMarkers W image dict = (marker_corners, marker_ids))
  ∧ estimatePoseSingleMarkers W marker_corners (narrow (marker_size_ node))
      (read_camera_matrix W node 0) (camera_distortion_ node) = (rvecs, tvecs).

(** Candidate [i] has a usable pose, and [t] is the transform the loop
    body builds for it. *)
Definition located (W : World) (node : ArucoRos2Node) (marker_ids : list Z)
    (rvecs tvecs : list cv.Row) (i : nat) (t : geometry_msgs.TransformStamped) : Prop :=
  ∃ id rv tv,
    marker_ids !! i = Some id
    ∧ rvecs !! i = Some (Some rv) ∧ tvecs !! i = Some (Some tv)
    ∧ t = make_marker_transform W node (now W (S i)) id rv tv.

(** [m] is the record the loop body builds for candidate [i] from its
    transform [t] and the answer [map_to_camera] of the tf buffer. *)
Definition recorded (W : World) (node : ArucoRos2Node) (msg : ImageMsg)
    (marker_ids : list Z) (marker_corners : list (list cv.Point2f))
    (i : nat) (t map_to_camera : geometry_msgs.TransformStamped) (m : Marker) : Prop :=
  ∃ corner,
    lookupTransform W i "map" (camera_frame_ node) = inr map_to_camera
    ∧ marker_corners !! i ≫= (λ corners, corners !! 0%nat) = Some corner
    ∧ marker_ids !! i = Some (mk_id m)
    ∧ m = mkMarker (mkHeader (stamp (im_header msg)) "map") (mk_id m)
                   (compose_marker_pose map_to_camera t) (cv.px corner) (cv.py corner).

(** The estimator left row [i] of [rvecs] or of [tvecs] empty. *)
Definition empty_pose (rvecs tvecs : list cv.Row) (i : nat) : Prop :=
  ∃ rvec tvec,
    rvecs !! i = Some rvec ∧ tvecs !! i = Some tvec
    ∧ cv.empty tvec || cv.empty rvec = true.

End Node.

Arguments mkImageMsg {Image} _ _ _.
Arguments im_header {Image} _.
Arguments encoding {Image} _.
Arguments data {Image} _.
Arguments Log {Image} _ _ _.
Arguments CreateSubscription {Image} _.
Arguments CreatePublisher {Image} _.
Arguments CreateTransformBroadcaster {Image}.
Arguments SendTransform {Image} _.
Arguments PublishImage {Image} _.
Arguments PublishMarkerArray {Image} _.
Arguments mkWorld {Image} _ _ _ _ _ _ _ _.
Arguments now {Image} _ _.
Arguments toCvCopy {Image} _ _.
Arguments detectMarkers {Image} _ _ _.
Arguments estimatePoseSingleMarkers {Image} _ _ _ _ _.
Arguments Rodrigues {Image} _ _.
Arguments drawAxis {Image} _ _ _ _ _ _ _.
Arguments memory {Image} _ _ _.
Arguments read_camera_matrix {Image} _ _ _.
Arguments lookupTransform {Image} _ _ _ _.
Arguments make_marker_transform {Image} _ _ _ _ _ _.
Arguments process_marker {Image} _ _ _ _ _ _ _ _ _.
Arguments marker_loop {Image} _ _ _ _ _ _ _ _ _ _ _.
Arguments detect_and_locate {Image} _ _ _ _ _.
Arguments image_callback {Image} _ _ _.
Arguments dictNameToEnum _ : simpl never.
Arguments leave_frame {Image} _ _ _.
Arguments observes {Image} _ _ _ _ _ _ _ _.
Arguments located {Image} _ _ _ _ _ _ _.
Arguments recorded {Image} _ _ _ _ _ _ _ _ _.
Arguments Continue {Image} _ _ _.
Arguments Stop {Image} _ _.
Arguments mkLoop {Image} _ _ _ _.
Arguments lp_events {Image} _.
Arguments lp_markers {Image} _.
Arguments lp_image {Image} _.
Arguments lp_exit {Image} _.
Arguments mkCallback {Image} _ _ _.
Arguments cb_events {Image} _.
Arguments cb_markers {Image} _.
Arguments cb_outcome {Image} _.
Arguments mkCameraInfoResult {Image} _ _ _.
Arguments ci_node {Image} _.
Arguments ci_events {Image} _.
Arguments ci_finish {Image} _.
Arguments broadcasts {Image} _.
Arguments published_marker_arrays {Image} _.
Arguments published_images {Image} _.
Arguments subscriptions {Image} _.
Arguments publishers {Image} _.
Arguments warnings {Image} _.

(** ** The event loop

    [main] hands the node to [rclcpp::spin] (line 332); the subscriptions
    of [initialize] bind the image topic to [image_callback] (lines 48-49)
    and the camera-info topic to [camera_info_callback] (lines 56-57). The
    executor of [rclcpp::spin] is single-threaded: it runs one callback at
    a time, in the order the messages are taken. A callback that faults
    ends the run; nothing is said about the process after that point.

    A message belongs to the executor: the node keeps no reference to a
    calibration message, only the address of its [k], so a frame that
    comes later reads the camera matrix from storage the executor is free
    to have released or reused. What it finds there is the [memory] of
    the world of that frame. *)
Section Executor.

Variable Image : Type.

(** One message taken by the executor, with what the outside world
    answers while its callback runs. *)
Inductive Delivery :=
| CameraInfoDelivery (garbage : nat -> float) (msg : CameraInfo)
| ImageDelivery (W : World Image) (msg : ImageMsg Image).

Definition is_image (delivery : Delivery) : Prop :=
  if delivery is ImageDelivery _ _ then True else False.

Record Run := mkRun {
  run_events : list (Event Image);
  run_node : ArucoRos2Node;       (** the fields when the run ended *)
  run_faulted : bool }.

Fixpoint spin (node : ArucoRos2Node) (deliveries : list Delivery) : Run :=
  match deliveries with
  | [] => mkRun [] node false
  | CameraInfoDelivery garbage msg :: rest =>
    let r := camera_info_callback Image garbage node msg in
    match ci_finish r with
    | OutOfBounds => mkRun (ci_events r) (ci_node r) true
    | Returned =>
      let run := spin (ci_node r) rest in
      mkRun (ci_events r ++ run_events run) (run_node run) (run_faulted run)
    end
  | ImageDelivery W msg :: rest =>
    let r := image_callback W node msg in
    match cb_outcome r with
    | Aborted Fault => mkRun (cb_events r) node true
    | _ =>
      let run := spin node rest in
      mkRun (cb_events r ++ run_events run) (run_node run) (run_faulted run)
    end
  end.

(** The formats of the INFO lines of a trace. *)
Definition infos (evs : list (Event Image)) : list string :=
  omap (λ e, if e is Log INFO f _ then Some f else None) evs.

(** What OpenCV promises about the two calls: as many corner lists as
    ids, none of them empty, and one rotation and one translation row per
    corner list. *)
Definition index_aligned (W : World Image) : Prop :=
  (∀ image dict,
     length (detectMarkers W image dict).1 = length (detectMarkers W image dict).2
     ∧ Forall (λ corners, corners ≠ []) (detectMarkers W image dict).1)
  ∧ (∀ marker_corners size camera_matrix distortion,
       length (estimatePoseSingleMarkers W marker_corners size camera_matrix distortion).1
       = length marker_corners
       ∧ length (estimatePoseSingleMarkers W marker_corners size camera_matrix distortion).2
         = length marker_corners).

(** The axes drawn on an image, one pose after the other, as line 201
    draws each; the first of them is drawn for candidate [i]. *)
Fixpoint draw_axes_from (W : World Image) (node : ArucoRos2Node) (i : nat)
    (image : Image) (poses : list (Vector3 * Vector3)) : Image :=
  match poses with
  | [] => image
  | pose :: rest =>
    draw_axes_from W node (S i)
      (drawAxis W image (read_camera_matrix W node (S i)) (camera_distortion_ node)
                pose.1 pose.2 (narrow (marker_size_ node * 0.5)))
      rest
  end.

Definition draw_axes (W : World Image) (node : ArucoRos2Node)
    (image : Image) (poses : list (Vector3 * Vector3)) : Image :=
  draw_axes_from W node 0 image poses.

End Executor.

Arguments CameraInfoDelivery {Image} _ _.
Arguments ImageDelivery {Image} _ _.
Arguments is_image {Image} _.
Arguments mkRun {Image} _ _ _.
Arguments run_events {Image} _.
Arguments run_node {Image} _.
Arguments run_faulted {Image} _.
Arguments spin {Image} _ _.
Arguments infos {Image} _.
Arguments index_aligned {Image} _.
Arguments draw_axes_from {Image} _ _ _ _ _.
Arguments draw_axes {Image} _ _ _ _.

#[global] Instance PREDEFINED_DICTIONARY_NAME_eq_dec :
  EqDecision cv.PREDEFINED_DICTIONARY_NAME.
Proof. solve_decision. Defined.

(** ** Rigid-transform composition as the specification words it

    "Rotation composed by matrix multiplication, translation composed as
    R_root_to_camera . t_camera_to_marker + t_root_to_camera": the
    textbook formulas, evaluated in binary64. Nothing in this module is
    taken from tf2: a rigid transform is a rotation matrix and an origin,
    a quaternion stands for the matrix [rotation_matrix] gives, and a
    matrix is turned back into a quaternion by [quaternion_of]. *)
Module Rigid.

Record t := mk { R : Matrix3x3; origin : Vector3 }.

(** The matrix product [A . B], entry (i, j) = sum over k of A(i,k) B(k,j). *)
Definition mat_mul (A B : Matrix3x3) : Matrix3x3 :=
  mkMatrix3x3
    (m00 A * m00 B + m01 A * m10 B + m02 A * m20 B)%float
    (m00 A * m01 B + m01 A * m11 B + m02 A * m21 B)%float
    (m00 A * m02 B + m01 A * m12 B + m02 A * m22 B)%float
    (m10 A * m00 B + m11 A * m10 B + m12 A * m20 B)%float
    (m10 A * m01 B + m11 A * m11 B + m12 A * m21 B)%float
    (m10 A * m02 B + m11 A * m12 B + m12 A * m22 B)%float
    (m20 A * m00 B + m21 A * m10 B + m22 A * m20 B)%float
    (m20 A * m01 B + m21 A * m11 B + m22 A * m21 B)%float
    (m20 A * m02 B + m21 A * m12 B + m22 A * m22 B)%float.

(** The matrix-vector product [A . v]. *)
Definition mat_vec (A : Matrix3x3) (v : Vector3) : Vector3 :=
  mkVector3 (m00 A * vx v + m01 A * vy v + m02 A * vz v)%float
            (m10 A * vx v + m11 A * vy v + m12 A * vz v)%float
            (m20 A * vx v + m21 A * vy v + m22 A * vz v)%float.

Definition vec_add (a b : Vector3) : Vector3 :=
  mkVector3 (vx a + vx b)%float (vy a + vy b)%float (vz a + vz b)%float.

(** [a ∘ b]: first [b], then [a]. *)
Definition compose (a b : t) : t :=
  mk (mat_mul (R a) (R b)) (vec_add (mat_vec (R a) (origin b)) (origin a)).

(** The rotation matrix of the quaternion [(x, y, z, w)], of any
    non-zero length: with [s = 2 / (xx + yy + zz + ww)],

      1 - s(yy + zz)    s(xy - wz)        s(xz + wy)
      s(xy + wz)        1 - s(xx + zz)    s(yz - wx)
      s(xz - wy)        s(yz + wx)        1 - s(xx + yy)

    where a product [s a b] is evaluated as [a * (b * s)]. *)
Definition rotation_matrix (q : Quaternion) : Matrix3x3 :=
  let '(mkQuaternion x y z w) := q in
  let s := (2 / (x * x + y * y + z * z + w * w))%float in
  mkMatrix3x3
    (1 - (y * (y * s) + z * (z * s)))%float
    (x * (y * s) - w * (z * s))%float
    (x * (z * s) + w * (y * s))%float
    (x * (y * s) + w * (z * s))%float
    (1 - (x * (x * s) + z * (z * s)))%float
    (y * (z * s) - w * (x * s))%float
    (x * (z * s) - w * (y * s))%float
    (y * (z * s) + w * (x * s))%float
    (1 - (x * (x * s) + y * (y * s)))%float.

(** The quaternion of a rotation matrix. The component taken from a
    square root is [w] when the trace is positive and otherwise the one of
    the largest diagonal entry; the other three come from the sums and
    differences of the off-diagonal entries, divided by four times it. *)
Definition quaternion_of (m : Matrix3x3) : Quaternion :=
  let '(mkMatrix3x3 a00 a01 a02 a10 a11 a12 a20 a21 a22) := m in
  let from_w :=
    let r := PrimFloat.sqrt (a00 + a11 + a22 + 1)%float in
    mkQuaternion ((a21 - a12) * (0.5 / r))%float ((a02 - a20) * (0.5 / r))%float
                 ((a10 - a01) * (0.5 / r))%float (r * 0.5)%float in
  let from_x :=
    let r := PrimFloat.sqrt (a00 - a11 - a22 + 1)%float in
    mkQuaternion (r * 0.5)%float ((a10 + a01) * (0.5 / r))%float
                 ((a20 + a02) * (0.5 / r))%float ((a21 - a12) * (0.5 / r))%float in
  let from_y :=
    let r := PrimFloat.sqrt (a11 - a22 - a00 + 1)%float in
    mkQuaternion ((a01 + a10) * (0.5 / r))%float (r * 0.5)%float
                 ((a21 + a12) * (0.5 / r))%float ((a02 - a20) * (0.5 / r))%float in
  let from_z :=
    let r := PrimFloat.sqrt (a22 - a00 - a11 + 1)%float in
    mkQuaternion ((a02 + a20) * (0.5 / r))%float ((a12 + a21) * (0.5 / r))%float
                 (r * 0.5)%float ((a10 - a01) * (0.5 / r))%float in
  if (0 <? a00 + a11 + a22)%float then from_w
  else if (a00 <? a11)%float then (if (a11 <? a22)%float then from_z else from_y)
  else (if (a00 <? a22)%float then from_z else from_x).

(** The rigid transform a [geometry_msgs/Transform] stands for: its
    translation, and the rotation matrix of its quaternion. *)
Definition of_msg (m : geometry_msgs.Transform) : t :=
  mk (rotation_matrix (geometry_msgs.rotation m)) (geometry_msgs.translation m).

(** The Hamilton product [p q] of two quaternions: the rotation [q]
    followed by the rotation [p]. *)
Definition quaternion_mul (p q : Quaternion) : Quaternion :=
  mkQuaternion
    (qw p * qx q + qx p * qw q + qy p * qz q - qz p * qy q)%float
    (qw p * qy q - qx p * qz q + qy p * qw q + qz p * qx q)%float
    (qw p * qz q + qx p * qy q - qy p * qx q + qz p * qw q)%float
    (qw p * qw q - qx p * qx q - qy p * qy q - qz p * qz q)%float.

(** [q] and [-q] stand for the same rotation. *)
Definition negate (q : Quaternion) : Quaternion :=
  mkQuaternion (- qx q)%float (- qy q)%float (- qz q)%float (- qw q)%float.

End Rigid.

(** ** The names the specification enumerates *)

(** Four sizes times four densities, an original variant, four AprilTag
    variants. *)
Definition sized_dictionary_names : list string :=
  size ← ["4X4"; "5X5"; "6X6"; "7X7"];
  count ← ["50"; "100"; "250"; "1000"];
  ["DICT_" +:+ size +:+ "_" +:+ count].

Definition apriltag_dictionary_names : list string :=
  (λ variant, "DICT_APRILTAG_" +:+ variant) <$> ["16h5"; "25h9"; "36h10"; "36h11"].

Definition dictionary_names : list string :=
  sized_dictionary_names ++ ["DICT_ARUCO_ORIGINAL"] ++ apriltag_dictionary_names.

(** ** A concrete camera, frame and world

    Two markers (ids 7 and 12) seen head-on: rotation vectors zero, for
    which [cv::Rodrigues] gives the identity matrix. An image is
    represented by the axes drawn on it so far, each with its length. *)
Module Scenario.

Definition Picture : Type := list (Vector3 * Vector3 * float).

Definition identity : Matrix3x3 := mkMatrix3x3 1 0 0 0 1 0 0 0 1.

Definition square (x y : float) : list cv.Point2f :=
  [ cv.mkPoint2f x y; cv.mkPoint2f (x + 40) y;
    cv.mkPoint2f (x + 40) (y + 40); cv.mkPoint2f x (y + 40) ].

Definition corners_7_12 : list (list cv.Point2f) := [square 100 120; square 300 80].

Definition zero3 : Vector3 := mkVector3 0 0 0.
Definition t7 : Vector3 := mkVector3 0.25 0 1.5.
Definition t12 : Vector3 := mkVector3 (-0.5) 0.125 2.

(** The camera in the map: one metre up, no rotation. *)
Definition map_to_camera : geometry_msgs.TransformStamped :=
  geometry_msgs.mkTransformStamped
    (mkHeader (mkTime 10 0) "map") "camera_rgb_optical_frame"
    (geometry_msgs.mkTransform (mkVector3 0 0 1) (mkQuaternion 0 0 0 1)).

Definition clock (n : nat) : Time := mkTime (20 + Z.of_nat n) 0.

Definition draw (image : Picture) (_ _ : cv.Mat) (rvec tvec : Vector3) (length : float)
  : Picture := image ++ [(rvec, tvec, length)].

(** The intrinsic matrix of the camera, row-major. *)
Definition intrinsics : cv.Mat := [525; 0; 320; 0; 525; 240; 0; 0; 1]%float.

(** The storage of the calibration message still holds its [k] whenever
    a frame reads it. *)
Definition kept (_ : nat) (_ : Address) : cv.Mat := intrinsics.

Definition world
    (detected : list (list cv.Point2f) * list Z)
    (poses : list cv.Row * list cv.Row)
    (lookup : nat -> string + geometry_msgs.TransformStamped) : World Picture :=
  mkWorld clock (λ msg, inr (data msg)) (λ _ _, detected) (λ _ _ _ _, poses)
          (λ _, identity) draw kept (λ i _ _, lookup i).

Definition tf_ok (i : nat) : string + geometry_msgs.TransformStamped :=
  inr map_to_camera.

Definition tf_missing (i : nat) : string + geometry_msgs.TransformStamped :=
  inl "map passed to lookupTransform argument target_frame does not exist".

Definition good_poses : list cv.Row * list cv.Row :=
  ([Some zero3; Some zero3], [Some t7; Some t12]).

(** Both markers located, the camera known in the map. *)
Definition world_ok : World Picture :=
  world (corners_7_12, [7; 12]%Z) good_poses tf_ok.

(** The camera as a robot carries it: at (1, 2, 0.5) in the map, looking
    along the x axis of the map; the optical frame has z forward, x to the
    right and y down. *)
Definition map_to_optical : geometry_msgs.TransformStamped :=
  geometry_msgs.mkTransformStamped
    (mkHeader (mkTime 10 0) "map") "camera_rgb_optical_frame"
    (geometry_msgs.mkTransform (mkVector3 1 2 0.5)
                               (mkQuaternion (-0.5) 0.5 (-0.5) 0.5)).

(** Both markers located by the forward-looking camera. *)
Definition world_optical : World Picture :=
  world (corners_7_12, [7; 12]%Z) good_poses (λ _, inr map_to_optical).

(** Both markers located, no path from the map to the camera. *)
Definition world_no_tf : World Picture :=
  world (corners_7_12, [7; 12]%Z) good_poses tf_missing.

(** The map is known while the first marker is processed and gone, the
    buffer having been cleared, when the second is. *)
Definition no_connection : string :=
  "Could not find a connection between 'map' and 'camera_rgb_optical_frame' because they are not part of the same tree.Tf has two or more unconnected trees.".

Definition tf_lost (i : nat) : string + geometry_msgs.TransformStamped :=
  match i with
  | O => inr map_to_camera
  | S _ => inl no_connection
  end.

Definition world_tf_lost : World Picture :=
  world (corners_7_12, [7; 12]%Z) good_poses tf_lost.

(** The estimator hands back a translation matrix with two rows and no
    column: every row of it is empty. *)
Definition world_no_columns : World Picture :=
  world (corners_7_12, [7; 12]%Z) ([Some zero3; Some zero3], [None; None]) tf_ok.

(** Nothing detected. *)
Definition world_empty : World Picture := world ([], []) ([], []) tf_ok.

(** The estimator fills the translation of the first marker with NaN. *)
Definition not_a_number : Vector3 := mkVector3 nan nan nan.

Definition world_nan : World Picture :=
  world (corners_7_12, [7; 12]%Z)
        ([Some zero3; Some zero3], [Some not_a_number; Some t12]) tf_ok.

(** An image cv_bridge cannot convert to BGR8. *)
Definition world_undecodable : World Picture :=
  mkWorld clock (λ _, inl "[16UC1] is not a color format") (λ _ _, ([], []))
          (λ _ _ _ _, ([], [])) (λ _, identity) draw kept (λ i _ _, tf_ok i).

Definition plumb_bob : CameraInfo :=
  mkCameraInfo (mkHeader (mkTime 1 0) "camera_rgb_optical_frame") 640 480
               (mkArray9 525 0 320 0 525 240 0 0 1) 1024
               [0.125; -0.25; 0; 0; 0.0625]%float.

(** A calibration without distortion coefficients. *)
Definition undistorted : CameraInfo :=
  mkCameraInfo (mkHeader (mkTime 1 0) "camera_rgb_optical_frame") 640 480
               (mkArray9 525 0 320 0 525 240 0 0 1) 2048 [].

(** A four-coefficient (fisheye) calibration. *)
Definition equidistant : CameraInfo :=
  mkCameraInfo (mkHeader (mkTime 1 0) "camera_rgb_optical_frame") 640 480
               (mkArray9 525 0 320 0 525 240 0 0 1) 3072
               [0.125; -0.25; 0.5; 0.0625]%float.

Definition garbage (i : nat) : float := 0x1.8p+100%float.

(** The node as [main] leaves it with the default parameters. *)
Definition fresh : ArucoRos2Node :=
  set_aruco_dict (construct Picture default_parameters).1 cv.DICT_4X4_1000.

(** The same node after its first calibration message. *)
Definition calibrated : ArucoRos2Node :=
  ci_node (camera_info_callback Picture garbage fresh plumb_bob).

Definition frame : ImageMsg Picture :=
  mkImageMsg (mkHeader (mkTime 5 0) "camera_rgb_optical_frame") "rgb8" [].

(** The records of the two markers in the map frame. *)
Definition marker_7 : Marker :=
  mkMarker (mkHeader (mkTime 5 0) "map") 7
           (geometry_msgs.mkPose (mkVector3 0.25 0 2.5) (mkQuaternion 0 0 0 1))
           100 120.

Definition marker_12 : Marker :=
  mkMarker (mkHeader (mkTime 5 0) "map") 12
           (geometry_msgs.mkPose (mkVector3 (-0.5) 0.125 3) (mkQuaternion 0 0 0 1))
           300 80.

(** The record of marker 12 seen by the forward-looking camera: two
    metres ahead of it, half a metre to its left, an eighth below. *)
Definition marker_12_ahead : Marker :=
  mkMarker (mkHeader (mkTime 5 0) "map") 12
           (geometry_msgs.mkPose (mkVector3 3 2.5 0.375)
                                 (mkQuaternion 0.5 (-0.5) 0.5 (-0.5)))
           300 80.

(** A world whose estimator returns one pose per corner list. *)
Definition world_aligned : World Picture :=
  mkWorld clock (λ msg, inr (data msg)) (λ _ _, (corners_7_12, [7; 12]%Z))
          (λ marker_corners _ _ _,
             ((λ _, Some zero3) <$> marker_corners, (λ _, Some t7) <$> marker_corners))
          (λ _, identity) draw kept (λ i _ _, tf_ok i).

(** Ten frames and no calibration. *)
Definition ten_frames : list (Delivery Picture) :=
  replicate 10 (ImageDelivery world_ok frame).

(** A frame, the first calibration, a frame, a calibration without
    distortion coefficients, a frame. *)
Definition session : list (Delivery Picture) :=
  [ ImageDelivery world_aligned frame;
    CameraInfoDelivery garbage plumb_bob;
    ImageDelivery world_aligned frame;
    CameraInfoDelivery garbage undistorted;
    ImageDelivery world_aligned frame ].

End Scenario.

(** * Properties *)

(** ** Frame names *)

Lemma to_int_not_nil (n : Z) :
  Z.to_int n ≠ Decimal.Pos Decimal.Nil ∧ Z.to_int n ≠ Decimal.Neg Decimal.Nil.
Proof.
  destruct n as [|p|p]; simpl; split; try discriminate;
    intros [= Hnil]; by apply (DecimalPos.Unsigned.to_uint_nonnil p).
Qed.

Lemma to_string_inj (a b : Z) : to_string a = to_string b -> a = b.
Proof.
  unfold to_string. intros Heq.
  destruct (to_int_not_nil a) as [Ha Ha'], (to_int_not_nil b) as [Hb Hb'].
  apply DecimalZ.to_int_inj.
  pose proof (NilZero.isi (Z.to_int a) Ha Ha') as Hparse.
  rewrite Heq, (NilZero.isi (Z.to_int b) Hb Hb') in Hparse. congruence.
Qed.

(** Distinct marker ids name distinct frames. *)
Theorem distinct_ids_distinct_frames (a b : Z) :
  a ≠ b -> marker_frame a ≠ marker_frame b.
Proof.
  intros Hne. unfold marker_frame. simpl. intros [= Heq].
  by apply Hne, to_string_inj.
Qed.

(** ** Start-up: the dictionary name *)

Lemma dict_name_table_names : dict_name_table.*1 = dictionary_names.
Proof. reflexivity. Qed.

Lemma dictionary_names_NoDup : NoDup dictionary_names.
Proof. apply (bool_decide_unpack _). vm_compute. exact I. Qed.

Lemma dictNameToEnum_known dict_name :
  dict_name ∈ dictionary_names ->
  ∃ dict, (dict_name, dict) ∈ dict_name_table ∧ dictNameToEnum dict_name = inr dict.
Proof.
  rewrite <- dict_name_table_names. intros Hin.
  apply list_elem_of_fmap in Hin as [[name dict] [-> Hin]]. exists dict. split; [exact Hin|].
  unfold dictNameToEnum, dict_name_map.
  rewrite (elem_of_list_to_map_1 dict_name_table name dict); [reflexivity| |exact Hin].
  rewrite dict_name_table_names. exact dictionary_names_NoDup.
Qed.

Lemma dictNameToEnum_unknown dict_name :
  dict_name ∉ dictionary_names ->
  dictNameToEnum dict_name = inl (invalid_argument "Invalid dictionary").
Proof.
  rewrite <- dict_name_table_names. intros Hout.
  unfold dictNameToEnum, dict_name_map.
  by rewrite (not_elem_of_list_to_map_1 dict_name_table dict_name Hout).
Qed.

Lemma dictNameToEnum_inr dict_name dict :
  dictNameToEnum dict_name = inr dict -> dict_name ∈ dictionary_names.
Proof.
  intros Hok. destruct (decide (dict_name ∈ dictionary_names)) as [|Hout]; [done|].
  rewrite (dictNameToEnum_unknown _ Hout) in Hok. discriminate.
Qed.

Section Startup.

Variable Image : Type.

Lemma main_subscribes (p : Parameters) :
  subscriptions (main Image p).1 = [p_image_topic p; p_camera_info_topic p].
Proof.
  unfold main, initialize. cbn [construct dictionary_ image_topic_ camera_info_topic_].
  by destruct (dictNameToEnum (p_dictionary p)).
Qed.

Lemma main_publishers (p : Parameters) :
  publishers (main Image p).1 = ["aruco_marker_info"; "/aruco/markers"; "/aruco/result"]
  ∧ CreateTransformBroadcaster ∈ (main Image p).1.
Proof.
  unfold main, initialize. cbn [construct dictionary_ image_topic_ camera_info_topic_].
  destruct (dictNameToEnum (p_dictionary p)); (split; [reflexivity|]);
    cbn [fst]; rewrite elem_of_app; right; rewrite !elem_of_cons; tauto.
Qed.

Lemma main_known (p : Parameters) :
  p_dictionary p ∈ dictionary_names ->
  ∃ dict, (p_dictionary p, dict) ∈ dict_name_table
          ∧ (main Image p).2 = Spinning (set_aruco_dict (construct Image p).1 dict).
Proof.
  intros Hin. destruct (dictNameToEnum_known _ Hin) as (dict & Htable & Hok).
  exists dict. split; [exact Htable|].
  unfold main, initialize. cbn [construct dictionary_]. by rewrite Hok.
Qed.

Lemma main_unknown (p : Parameters) :
  p_dictionary p ∉ dictionary_names ->
  (main Image p).2 = Terminated (invalid_argument "Invalid dictionary").
Proof.
  intros Hout. unfold main, initialize. cbn [construct dictionary_].
  by rewrite (dictNameToEnum_unknown _ Hout).
Qed.

(** C6, as the code has it: the table of [dictNameToEnum] holds exactly
    the 21 enumerated names (sixteen size/density variants, the original
    variant, four AprilTag variants); start-up reaches [rclcpp::spin]
    with the dictionary set exactly for those names, and for every
    other string [main] ends with [std::invalid_argument] before
    spinning. In both cases [initialize] has by then created the image
    and the camera-info subscriptions, the three publishers and the
    transform broadcaster: the name is resolved last. *)
Theorem dictionary_validated_after_subscribing (p : Parameters) :
  (dict_name_table.*1 = dictionary_names
   ∧ length sized_dictionary_names = 16%nat
   ∧ length apriltag_dictionary_names = 4%nat
   ∧ length dictionary_names = 21%nat)
  ∧ (p_dictionary p ∈ dictionary_names
     ↔ ∃ dict, (p_dictionary p, dict) ∈ dict_name_table
               ∧ (main Image p).2 = Spinning (set_aruco_dict (construct Image p).1 dict))
  ∧ (p_dictionary p ∉ dictionary_names
     ↔ (main Image p).2 = Terminated (invalid_argument "Invalid dictionary"))
  ∧ subscriptions (main Image p).1 = [p_image_topic p; p_camera_info_topic p]
  ∧ publishers (main Image p).1 = ["aruco_marker_info"; "/aruco/markers"; "/aruco/result"]
  ∧ CreateTransformBroadcaster ∈ (main Image p).1.
Proof.
  split; [by repeat split|]. split; [|split; [|split; [|apply main_publishers]]].
  - split; [apply main_known|].
    intros (dict & _ & Hspin).
    destruct (decide (p_dictionary p ∈ dictionary_names)) as [|Hout]; [done|].
    rewrite (main_unknown _ Hout) in Hspin. discriminate.
  - split; [apply main_unknown|].
    intros Hend Hin. destruct (main_known _ Hin) as (dict & _ & Hspin).
    rewrite Hspin in Hend. discriminate.
  - apply main_subscribes.
Qed.

End Startup.

(** C6, the claim as stated fails: with the dictionary parameter
    "NOT_A_REAL_DICT" start-up does fail, but the trace up to the failure
    already holds both subscriptions. *)
Lemma unknown_dictionary_fails_after_subscriptions :
  let p := mkParameters 0x1.999999999999ap-4%float "camera_rgb_optical_frame"
                        "/camera/color/image_raw" "/camera/color/camera_info"
                        "NOT_A_REAL_DICT" in
  (main Scenario.Picture p).2 = Terminated (invalid_argument "Invalid dictionary")
  ∧ subscriptions (main Scenario.Picture p).1
    = ["/camera/color/image_raw"; "/camera/color/camera_info"]
  ∧ subscriptions (main Scenario.Picture p).1 ≠ [].
Proof. by vm_compute. Qed.

(** ** Calibration *)

Lemma copy_distortion_spec (n i : nat) (d : list float) (m : cv.Mat) :
  length m = length d -> (i + n)%nat = length d ->
  copy_distortion n i d m = Some (take i m ++ drop i d).
Proof.
  revert i m. induction n as [|n IH]; intros i m Hlen Hend; simpl.
  - rewrite take_ge, drop_ge by lia. by rewrite app_nil_r.
  - destruct (lookup_lt_is_Some_2 d i) as [v Hv]; [lia|].
    rewrite Hv; simpl. unfold cv.set_at.
    rewrite decide_True by lia. simpl.
    rewrite IH by (rewrite ?length_insert; lia).
    f_equal.
    rewrite (take_S_r _ _ v) by (apply list_lookup_insert_eq; lia).
    rewrite take_insert_ge by lia.
    rewrite (drop_S d v i Hv). by rewrite <- app_assoc.
Qed.

Lemma store_calibration_spec (garbage : nat -> float) (node : ArucoRos2Node)
    (msg : CameraInfo) :
  store_calibration garbage node msg
  = Some (set_camera_distortion
            (set_camera_matrix node (cv.header_over (k_data msg)))
            (match d msg with [] => cv.zeros 4 | _ :: _ => d msg end)).
Proof.
  unfold store_calibration. destruct (d msg) as [|x l] eqn:Hd; [reflexivity|].
  rewrite copy_distortion_spec.
  - reflexivity.
  - unfold cv.uninitialized. by rewrite length_fmap, length_seq.
  - reflexivity.
Qed.

Section Calibration.

Variable Image : Type.

(** The fields a calibration message leaves behind, however the
    callback ends. *)
Lemma camera_info_callback_node garbage node msg :
  ci_node (camera_info_callback Image garbage node msg)
  = let stored :=
      set_camera_distortion
        (set_camera_matrix node (cv.header_over (k_data msg)))
        (match d msg with [] => cv.zeros 4 | _ :: _ => d msg end) in
    match ci_finish (camera_info_callback Image garbage node msg) with
    | Returned => set_received_camera_info stored true
    | OutOfBounds => stored
    end.
Proof.
  unfold camera_info_callback. rewrite store_calibration_spec. simpl.
  destruct (received_camera_info_ node) eqn:Hrec; simpl.
  - by destruct node; simpl in *; subst.
  - by destruct (d msg !! 0%nat), (d msg !! 1%nat), (d msg !! 2%nat),
                (d msg !! 3%nat), (d msg !! 4%nat).
Qed.

(** Which calibration messages the callback survives. *)
Lemma camera_info_callback_finish garbage node msg :
  ci_finish (camera_info_callback Image garbage node msg)
  = if received_camera_info_ node || bool_decide (5 ≤ length (d msg))%nat
    then Returned else OutOfBounds.
Proof.
  unfold camera_info_callback. rewrite store_calibration_spec. simpl.
  destruct (received_camera_info_ node); [reflexivity|]. simpl.
  by destruct (d msg) as [|d0 [|d1 [|d2 [|d3 [|d4 rest]]]]].
Qed.

(** C10: after a calibration message with no distortion coefficients
    the stored distortion is the row of four zeros; after one with n > 0
    coefficients it has n entries, equal to the message's one by one. *)
Theorem stored_distortion_follows_message garbage node msg :
  let stored :=
    camera_distortion_ (ci_node (camera_info_callback Image garbage node msg)) in
  match d msg with
  | [] => stored = [0; 0; 0; 0]%float
  | _ :: _ => length stored = length (d msg) ∧ ∀ i : nat, stored !! i = d msg !! i
  end.
Proof.
  simpl. rewrite camera_info_callback_node. simpl.
  destruct (ci_finish _), (d msg); simpl; auto.
Qed.

End Calibration.

(** C9, the failing inputs: on a node that has not seen a calibration
    yet, a message with no distortion coefficients, or with the four of a
    fisheye model, makes the logging statement read [msg->d] outside its
    bounds; with five coefficients the callback returns. *)
Theorem first_camera_info_reads_outside_distortion :
  ci_finish (camera_info_callback Scenario.Picture Scenario.garbage
               Scenario.fresh Scenario.undistorted) = OutOfBounds
  ∧ ci_finish (camera_info_callback Scenario.Picture Scenario.garbage
                 Scenario.fresh Scenario.equidistant) = OutOfBounds
  ∧ ci_finish (camera_info_callback Scenario.Picture Scenario.garbage
                 Scenario.fresh Scenario.plumb_bob) = Returned.
Proof. by vm_compute. Qed.


(** ** The per-frame pipeline *)

Section Trace.

Variable Image : Type.
Implicit Types evs : list (Event Image).

Lemma broadcasts_app evs evs' :
  broadcasts (evs ++ evs') = broadcasts evs ++ broadcasts evs'.
Proof. apply omap_app. Qed.

Lemma warnings_app evs evs' : warnings (evs ++ evs') = warnings evs ++ warnings evs'.
Proof. apply omap_app. Qed.

Lemma published_images_app evs evs' :
  published_images (evs ++ evs') = published_images evs ++ published_images evs'.
Proof. apply omap_app. Qed.

Lemma published_marker_arrays_app evs evs' :
  published_marker_arrays (evs ++ evs')
  = published_marker_arrays evs ++ published_marker_arrays evs'.
Proof. apply omap_app. Qed.

End Trace.

Section Loop.

Variable Image : Type.
Variable W : World Image.
Variable node : ArucoRos2Node.
Variable msg : ImageMsg Image.
Variable marker_ids : list Z.
Variable marker_corners : list (list cv.Point2f).
Variables rvecs tvecs : list cv.Row.

Local Abbreviation body := (process_marker W node msg marker_ids marker_corners rvecs tvecs).
Local Abbreviation loop := (marker_loop W node msg marker_ids marker_corners rvecs tvecs).
Local Abbreviation located := (located W node marker_ids rvecs tvecs).
Local Abbreviation recorded := (recorded W node msg marker_ids marker_corners).

(** *** One pass through the body *)

Lemma body_empty_pose image i :
  empty_pose rvecs tvecs i ->
  body image i = Stop [Log WARN "Pose estimation failed for marker." []] PoseEstimationFailed.
Proof.
  intros (rvec & tvec & Hr & Ht & Hempty). unfold process_marker.
  rewrite Hr, Ht. destruct rvec, tvec; simpl in Hempty; done.
Qed.

(** A candidate with a usable pose is broadcast before the tf buffer is
    asked; a failing lookup ends the pass there. *)
Lemma body_lookup_failed image i t what :
  located i t ->
  lookupTransform W i "map" (camera_frame_ node) = inl what ->
  ∃ id, marker_ids !! i = Some id
        ∧ body image i
          = Stop [SendTransform t; Log INFO "Detected marker %d" [ArgInt id]]
                 (TransformLookupFailed what).
Proof.
  intros (id & rv & tv & Hid & Hr & Ht & ->) Hlookup. exists id. split; [exact Hid|].
  unfold process_marker. by rewrite Hr, Ht, Hid, Hlookup.
Qed.

Lemma body_recorded image i t map_to_camera corner :
  located i t ->
  lookupTransform W i "map" (camera_frame_ node) = inr map_to_camera ->
  marker_corners !! i ≫= (λ corners, corners !! 0%nat) = Some corner ->
  ∃ m image',
    body image i
    = Continue [SendTransform t; Log INFO "Detected marker %d" [ArgInt (mk_id m)]]
               m image'
    ∧ recorded i t map_to_camera m.
Proof.
  intros (id & rv & tv & Hid & Hr & Ht & ->) Hlookup Hcorner.
  unfold process_marker. rewrite Hr, Ht, Hid, Hlookup, Hcorner.
  eexists (mkMarker _ id _ _ _), _. split; [reflexivity|].
  exists corner. by repeat split.
Qed.

Lemma body_Continue image i emitted m image' :
  body image i = Continue emitted m image' ->
  ∃ t map_to_camera,
    located i t ∧ recorded i t map_to_camera m
    ∧ emitted = [SendTransform t; Log INFO "Detected marker %d" [ArgInt (mk_id m)]].
Proof.
  unfold process_marker.
  destruct (rvecs !! i) as [[rv|]|] eqn:Hr; [|by destruct (tvecs !! i) as [[]|]..].
  destruct (tvecs !! i) as [[tv|]|] eqn:Ht; try done.
  destruct (marker_ids !! i) as [id|] eqn:Hid; [|done].
  destruct (lookupTransform W i "map" (camera_frame_ node))
    as [what|map_to_camera] eqn:Hlookup; [done|].
  destruct (marker_corners !! i ≫= _) as [corner|] eqn:Hcorner; [|done].
  intros [= <- <- <-].
  exists (make_marker_transform W node (now W (S i)) id rv tv), map_to_camera.
  split; [by exists id, rv, tv|]. split; [|reflexivity].
  exists corner. by repeat split.
Qed.

Lemma body_Stop image i emitted why :
  body image i = Stop emitted why ->
  match why with
  | PoseEstimationFailed =>
    empty_pose rvecs tvecs i
    ∧ emitted = [Log WARN "Pose estimation failed for marker." []]
  | TransformLookupFailed what =>
    ∃ t, located i t
         ∧ lookupTransform W i "map" (camera_frame_ node) = inl what
         ∧ broadcasts emitted = [t] ∧ warnings emitted = []
  | Fault =>
    warnings emitted = []
    ∧ (broadcasts emitted = [] ∨ ∃ t, located i t ∧ broadcasts emitted = [t])
  end.
Proof.
  unfold process_marker.
  destruct (rvecs !! i) as [rvec|] eqn:Hr; [|intros [= <- <-]; by split; [|left]].
  destruct (tvecs !! i) as [tvec|] eqn:Ht;
    [|destruct rvec; intros [= <- <-]; by split; [|left]].
  destruct rvec as [rv|], tvec as [tv|];
    try (intros [= <- <-]; split; [by eexists _, _|reflexivity]).
  destruct (marker_ids !! i) as [id|] eqn:Hid; [|intros [= <- <-]; by split; [|left]].
  assert (located i (make_marker_transform W node (now W (S i)) id rv tv))
    by (by exists id, rv, tv).
  destruct (lookupTransform W i "map" (camera_frame_ node))
    as [what|map_to_camera] eqn:Hlookup.
  - intros [= <- <-]. eauto.
  - destruct (marker_corners !! i ≫= _) as [corner|]; [done|].
    intros [= <- <-]. split; [done|]. right. eauto.
Qed.

(** *** The loop *)

(** What the loop leaves behind, wherever it stops: the records are
    appended in index order, each one after the broadcast of its own
    candidate, and a broadcast is only ever made for a candidate whose
    pose rows are both present. *)
Lemma loop_records n i acc image :
  let r := loop n i acc image in
  ∃ new,
    lp_markers r = acc ++ new
    ∧ (length new ≤ length (broadcasts (lp_events r)))%nat
    ∧ (∀ j t, broadcasts (lp_events r) !! j = Some t -> located (i + j) t)
    ∧ (∀ j m, new !! j = Some m ->
         ∃ t map_to_camera,
           broadcasts (lp_events r) !! j = Some t
           ∧ recorded (i + j) t map_to_camera m).
Proof.
  revert i acc image. induction n as [|n IH]; intros i acc image; simpl.
  { exists []. rewrite app_nil_r. split; [done|]. split; [simpl; lia|].
    split; intros j ? Hj; done. }
  destruct (body image i) as [emitted m image'|emitted why] eqn:Hbody; simpl.
  - apply body_Continue in Hbody as (t & map_to_camera & Hloc & Hrec & ->).
    destruct (IH (S i) (acc ++ [m]) image') as (new & Hnew & Hlen & Hb & Hm).
    exists (m :: new). rewrite Hnew, <- app_assoc. simpl. split; [done|].
    split; [lia|]. split.
    + intros [|j] t'; simpl.
      * intros [= <-]. by rewrite Nat.add_0_r.
      * intros Hj. rewrite Nat.add_succ_r. by apply Hb.
    + intros [|j] m'; simpl.
      * intros [= <-]. rewrite Nat.add_0_r. eauto.
      * intros Hj. rewrite Nat.add_succ_r. by apply Hm.
  - exists []. rewrite app_nil_r. split; [done|]. split; [simpl; lia|].
    split; [|done]. intros j t Hj.
    apply body_Stop in Hbody. destruct why as [|what|].
    + destruct Hbody as [_ ->]. done.
    + destruct Hbody as (t' & Hloc & _ & Hb & _). rewrite Hb in Hj.
      destruct j; simplify_eq/=. by rewrite Nat.add_0_r.
    + destruct Hbody as [_ [Hb|(t' & Hloc & Hb)]]; rewrite Hb in Hj; [done|].
      destruct j; simplify_eq/=. by rewrite Nat.add_0_r.
Qed.

Lemma body_publishes_nothing image i :
  match body image i with
  | Continue emitted _ _ | Stop emitted _ =>
    published_images emitted = [] ∧ published_marker_arrays emitted = []
  end.
Proof.
  unfold process_marker.
  destruct (rvecs !! i) as [[rv|]|], (tvecs !! i) as [[tv|]|]; try done.
  destruct (marker_ids !! i); [|done].
  destruct (lookupTransform W i "map" (camera_frame_ node)); [done|].
  by destruct (marker_corners !! i ≫= _).
Qed.

Lemma loop_publishes_nothing n i acc image :
  published_images (lp_events (loop n i acc image)) = []
  ∧ published_marker_arrays (lp_events (loop n i acc image)) = [].
Proof.
  revert i acc image. induction n as [|n IH]; intros i acc image; simpl; [done|].
  pose proof (body_publishes_nothing image i) as Hbody.
  destruct (body image i) as [emitted m image'|emitted why]; simpl; [|done].
  rewrite published_images_app, published_marker_arrays_app.
  destruct Hbody as [-> ->], (IH (S i) (acc ++ [m]) image') as [-> ->]. done.
Qed.

(** The body faults only on an index outside one of the four containers. *)
Lemma body_in_range image i emitted :
  is_Some (rvecs !! i) -> is_Some (tvecs !! i) -> is_Some (marker_ids !! i) ->
  is_Some (marker_corners !! i ≫= (λ corners, corners !! 0%nat)) ->
  body image i ≠ Stop emitted Fault.
Proof.
  intros [rvec Hr] [tvec Ht] [id Hid] [corner Hcorner]. unfold process_marker.
  rewrite Hr, Ht, Hid, Hcorner. destruct rvec, tvec; try done.
  by destruct (lookupTransform W i "map" (camera_frame_ node)).
Qed.

(** An empty pose row at index [k] is never passed. The loop is left at
    the first index [j] at which something goes wrong, and [j] is not
    beyond [k]: at an empty row with the warning of line 139 and [j - i]
    broadcasts, or before [k] by a failed lookup, right after the
    broadcast of candidate [j]. *)
Lemma loop_empty_pose n i acc image k :
  (i ≤ k < i + n)%nat -> (k < length marker_ids)%nat ->
  empty_pose rvecs tvecs k ->
  (∀ l, (l < k)%nat -> is_Some (marker_corners !! l ≫= (λ corners, corners !! 0%nat))) ->
  let r := loop n i acc image in
  ∃ j, (i ≤ j ≤ k)%nat
    ∧ length (lp_markers r) = (length acc + (j - i))%nat
    ∧ ((empty_pose rvecs tvecs j
        ∧ lp_exit r = Some PoseEstimationFailed
        ∧ warnings (lp_events r) = ["Pose estimation failed for marker."]
        ∧ length (broadcasts (lp_events r)) = (j - i)%nat)
       ∨ ((j < k)%nat
          ∧ ∃ what,
              lookupTransform W j "map" (camera_frame_ node) = inl what
              ∧ lp_exit r = Some (TransformLookupFailed what)
              ∧ warnings (lp_events r) = []
              ∧ length (broadcasts (lp_events r)) = S (j - i))).
Proof.
  intros Hk Hids Hdeg Hcorners. revert i acc image Hk.
  induction n as [|n IH]; intros i acc image Hk; simpl; [lia|].
  destruct (decide (i = k)) as [->|Hne].
  { rewrite (body_empty_pose image k Hdeg). simpl. exists k.
    rewrite Nat.sub_diag. split; [lia|]. split; [lia|]. left. by repeat split. }
  destruct (body image i) as [emitted m image'|emitted why] eqn:Hbody; simpl.
  - apply body_Continue in Hbody as (t & map_to_camera & _ & _ & ->).
    destruct (IH (S i) (acc ++ [m]) image') as (j & Hj & Hm & Hcase); [lia|].
    exists j. split; [lia|]. rewrite Hm, length_app. simpl. split; [lia|].
    destruct Hcase as [(Hd & Hexit & Hw & Hb)|(Hlt & what & Hfail & Hexit & Hw & Hb)].
    + left. rewrite Hw, Hb. repeat split; [done..|lia].
    + right. split; [done|]. exists what. rewrite Hw, Hb. repeat split; [done..|lia].
  - exists i. rewrite Nat.sub_diag. split; [lia|]. split; [lia|].
    pose proof (body_Stop image i emitted why Hbody) as Hstop.
    destruct why as [|what|].
    + destruct Hstop as [Hd ->]. left. by repeat split.
    + destruct Hstop as (t & _ & Hfail & Hb & Hw). right. split; [lia|].
      exists what. rewrite Hb, Hw. by repeat split.
    + exfalso. destruct Hdeg as (rvec & tvec & Hr & Ht & _).
      apply (body_in_range image i emitted); [..|exact Hbody].
      * apply lookup_lt_is_Some. apply lookup_lt_Some in Hr. lia.
      * apply lookup_lt_is_Some. apply lookup_lt_Some in Ht. lia.
      * apply lookup_lt_is_Some. lia.
      * apply Hcorners. lia.
Qed.

(** The first failing lookup, at index [j], ends the loop right after the
    broadcast of candidate [j]. *)
Lemma loop_lookup_failed n i acc image j what :
  (i ≤ j < i + n)%nat ->
  (∀ l, (l ≤ j)%nat -> ∃ t, located l t) ->
  (∀ l, (l < j)%nat ->
     (∃ map_to_camera, lookupTransform W l "map" (camera_frame_ node) = inr map_to_camera)
     ∧ is_Some (marker_corners !! l ≫= (λ corners, corners !! 0%nat))) ->
  lookupTransform W j "map" (camera_frame_ node) = inl what ->
  let r := loop n i acc image in
  lp_exit r = Some (TransformLookupFailed what)
  ∧ length (broadcasts (lp_events r)) = S (j - i)
  ∧ length (lp_markers r) = (length acc + (j - i))%nat
  ∧ warnings (lp_events r) = [].
Proof.
  intros Hj Hloc Hbefore Hfail. revert i acc image Hj.
  induction n as [|n IH]; intros i acc image Hj; simpl; [lia|].
  destruct (Hloc i) as [t Ht]; [lia|].
  destruct (decide (i = j)) as [->|Hne].
  { destruct (body_lookup_failed image j t what Ht Hfail) as (id & _ & ->). simpl.
    rewrite Nat.sub_diag. repeat split; lia. }
  destruct (Hbefore i) as [[map_to_camera Hok] [corner Hcorner]]; [lia|].
  destruct (body_recorded image i t map_to_camera corner Ht Hok Hcorner)
    as (m & image' & -> & _). simpl.
  destruct (IH (S i) (acc ++ [m]) image') as (Hexit & Hb & Hm & Hw); [lia|].
  rewrite Hexit, Hb, Hm, Hw, length_app. simpl. repeat split; lia.
Qed.

(** With a usable pose, a transform from the map and a corner list for
    every remaining candidate, the loop runs to its end. *)
Lemma loop_completes n i acc image :
  (∀ l, (i ≤ l < i + n)%nat ->
     (∃ t, located l t)
     ∧ (∃ map_to_camera, lookupTransform W l "map" (camera_frame_ node) = inr map_to_camera)
     ∧ is_Some (marker_corners !! l ≫= (λ corners, corners !! 0%nat))) ->
  let r := loop n i acc image in
  lp_exit r = None
  ∧ length (broadcasts (lp_events r)) = n
  ∧ length (lp_markers r) = (length acc + n)%nat
  ∧ warnings (lp_events r) = [].
Proof.
  revert i acc image. induction n as [|n IH]; intros i acc image Hall; simpl.
  { repeat split; lia. }
  destruct (Hall i) as ([t Ht] & [map_to_camera Hok] & [corner Hcorner]); [lia|].
  destruct (body_recorded image i t map_to_camera corner Ht Hok Hcorner)
    as (m & image' & -> & _). simpl.
  destruct (IH (S i) (acc ++ [m]) image') as (Hexit & Hb & Hm & Hw).
  { intros l Hl. apply Hall. lia. }
  rewrite Hexit, Hb, Hm, Hw, length_app. simpl. repeat split; lia.
Qed.

End Loop.

Section Callback.

Variable Image : Type.
Variable W : World Image.
Variable node : ArucoRos2Node.
Variable msg : ImageMsg Image.

(** The callback of a frame that reaches the loop. *)
Lemma image_callback_observes image marker_corners marker_ids rvecs tvecs :
  observes W node msg image marker_corners marker_ids rvecs tvecs ->
  image_callback W node msg
  = leave_frame W msg
      (marker_loop W node msg marker_ids marker_corners rvecs tvecs
                   (length marker_ids) 0 [] image).
Proof.
  intros (Hrec & Himage & (dict & Hdict & Hdetect) & Hposes).
  unfold image_callback, detect_and_locate.
  rewrite Hrec, Himage, Hdict, Hdetect. simpl.
  destruct marker_ids; [reflexivity|]. by rewrite Hposes.
Qed.

(** Every callback that stored a record or sent a transform reached the loop. *)
Lemma image_callback_inv :
  (broadcasts (cb_events (image_callback W node msg)) = []
   ∧ cb_markers (image_callback W node msg) = []
   ∧ published_marker_arrays (cb_events (image_callback W node msg)) = []
   ∧ published_images (cb_events (image_callback W node msg)) = []
   ∧ ∀ why, cb_outcome (image_callback W node msg) = Aborted why -> why = Fault)
  ∨ ∃ image marker_corners marker_ids rvecs tvecs,
      observes W node msg image marker_corners marker_ids rvecs tvecs.
Proof.
  unfold image_callback, observes.
  destruct (received_camera_info_ node); simpl; [|left; by repeat split].
  destruct (toCvCopy W msg) as [what|image]; [left; by repeat split|].
  destruct (aruco_dict_ node) as [dict|];
    [|left; repeat split; try done; by intros why [= <-]].
  right. destruct (detectMarkers W image dict) as [marker_corners marker_ids] eqn:Hd.
  destruct (estimatePoseSingleMarkers W marker_corners (narrow (marker_size_ node))
              (read_camera_matrix W node 0) (camera_distortion_ node)) as [rvecs tvecs] eqn:He.
  exists image, marker_corners, marker_ids, rvecs, tvecs. eauto 10.
Qed.

Lemma leave_frame_broadcasts (r : Loop Image) :
  broadcasts (cb_events (leave_frame W msg r)) = broadcasts (lp_events r).
Proof.
  unfold leave_frame. destruct (lp_exit r) as [[]|]; simpl;
    rewrite ?broadcasts_app; simpl; by rewrite ?app_nil_r.
Qed.

Lemma leave_frame_markers (r : Loop Image) :
  cb_markers (leave_frame W msg r) = lp_markers r.
Proof. unfold leave_frame. by destruct (lp_exit r) as [[]|]. Qed.

Lemma leave_frame_aborted (r : Loop Image) why :
  published_images (lp_events r) = [] ->
  published_marker_arrays (lp_events r) = [] ->
  lp_exit r = Some why ->
  cb_outcome (leave_frame W msg r) = Aborted why
  ∧ published_images (cb_events (leave_frame W msg r)) = []
  ∧ published_marker_arrays (cb_events (leave_frame W msg r)) = []
  ∧ warnings (cb_events (leave_frame W msg r))
    = warnings (lp_events r)
      ++ (if why is TransformLookupFailed _ then ["TF2 exception: %s"] else []).
Proof.
  intros Hi Hm Hexit. unfold leave_frame. rewrite Hexit.
  destruct why; simpl;
    rewrite ?published_images_app, ?published_marker_arrays_app, ?warnings_app,
            ?Hi, ?Hm, ?app_nil_r; done.
Qed.

End Callback.

(** ** Composition of the two transforms *)

Lemma SFmul_comm prec emax (x y : SpecFloat.spec_float) :
  SpecFloat.SFmul prec emax x y = SpecFloat.SFmul prec emax y x.
Proof.
  destruct x as [sx|sx| |sx mx ex], y as [sy|sy| |sy my ey]; simpl;
    rewrite ?(xorb_comm sx sy); try reflexivity.
  by rewrite (Pos.mul_comm mx my), (Z.add_comm ex ey).
Qed.

(** Binary64 multiplication is commutative. *)
Lemma float_mul_comm (a b : float) : (a * b)%float = (b * a)%float.
Proof. apply Prim2SF_inj. rewrite !mul_spec. apply SFmul_comm. Qed.

(** [tf2]'s matrix product multiplies each pair of entries in the other
    order; the sums are the textbook ones. *)
Lemma Matrix3x3_mul_textbook (a b : Matrix3x3) :
  tf2.Matrix3x3_mul a b = Rigid.mat_mul a b.
Proof.
  unfold tf2.Matrix3x3_mul, Rigid.mat_mul, tf2.tdotx, tf2.tdoty, tf2.tdotz; simpl.
  f_equal;
    match goal with
    | |- (?x0 * _ + ?x1 * _ + ?x2 * _)%float = _ =>
      by rewrite (float_mul_comm x0), (float_mul_comm x1), (float_mul_comm x2)
    end.
Qed.

Lemma Transform_mul_rigid (a b : tf2.Transform) :
  tf2.mul a b
  = tf2.mkTransform
      (Rigid.mat_mul (tf2.m_basis a) (tf2.m_basis b))
      (Rigid.vec_add (Rigid.mat_vec (tf2.m_basis a) (tf2.m_origin b)) (tf2.m_origin a)).
Proof. unfold tf2.mul. by rewrite Matrix3x3_mul_textbook. Qed.

(** [tf2]'s conversions between quaternions and matrices are the
    standard ones. *)
Lemma setRotation_standard (q : Quaternion) :
  tf2.setRotation q = Rigid.rotation_matrix q.
Proof. by destruct q. Qed.

Lemma getRotation_standard (m : Matrix3x3) :
  tf2.getRotation m = Rigid.quaternion_of m.
Proof.
  destruct m as [a00 a01 a02 a10 a11 a12 a20 a21 a22].
  unfold tf2.getRotation, Rigid.quaternion_of; simpl.
  destruct (0 <? a00 + a11 + a22)%float; [reflexivity|].
  by destruct (a00 <? a11)%float, (a11 <? a22)%float, (a00 <? a22)%float.
Qed.

(** The standard conversions at rotations whose entries binary64 holds
    exactly: no rotation, the three half turns about the axes, the turn
    by a third about the diagonal that sends x to y, y to z and z to x. *)
Lemma rotation_matrix_landmarks :
  Rigid.rotation_matrix (mkQuaternion 0 0 0 1) = mkMatrix3x3 1 0 0 0 1 0 0 0 1
  ∧ Rigid.rotation_matrix (mkQuaternion 1 0 0 0) = mkMatrix3x3 1 0 0 0 (-1) 0 0 0 (-1)
  ∧ Rigid.rotation_matrix (mkQuaternion 0 1 0 0) = mkMatrix3x3 (-1) 0 0 0 1 0 0 0 (-1)
  ∧ Rigid.rotation_matrix (mkQuaternion 0 0 1 0) = mkMatrix3x3 (-1) 0 0 0 (-1) 0 0 0 1
  ∧ Rigid.rotation_matrix (mkQuaternion 0.5 0.5 0.5 0.5) = mkMatrix3x3 0 0 1 1 0 0 0 1 0.
Proof. by vm_compute. Qed.

Lemma quaternion_of_landmarks :
  Rigid.quaternion_of (mkMatrix3x3 1 0 0 0 1 0 0 0 1) = mkQuaternion 0 0 0 1
  ∧ Rigid.quaternion_of (mkMatrix3x3 1 0 0 0 (-1) 0 0 0 (-1)) = mkQuaternion 1 0 0 0
  ∧ Rigid.quaternion_of (mkMatrix3x3 (-1) 0 0 0 1 0 0 0 (-1)) = mkQuaternion 0 1 0 0
  ∧ Rigid.quaternion_of (mkMatrix3x3 (-1) 0 0 0 (-1) 0 0 0 1) = mkQuaternion 0 0 1 0
  ∧ Rigid.quaternion_of (mkMatrix3x3 0 0 1 1 0 0 0 1 0) = mkQuaternion 0.5 0.5 0.5 0.5.
Proof. by vm_compute. Qed.

(** Lines 173-186 compute the composition [map_to_camera ∘ marker_transform]. *)
Lemma compose_marker_pose_rigid (map_to_camera marker_transform : geometry_msgs.TransformStamped) :
  let composed :=
    Rigid.compose (Rigid.of_msg (geometry_msgs.transform map_to_camera))
                  (Rigid.of_msg (geometry_msgs.transform marker_transform)) in
  compose_marker_pose map_to_camera marker_transform
  = geometry_msgs.mkPose (Rigid.origin composed) (Rigid.quaternion_of (Rigid.R composed)).
Proof.
  unfold compose_marker_pose. rewrite Transform_mul_rigid.
  unfold tf2.Transform_getRotation, tf2.getOrigin, tf2.fromMsg, Rigid.compose, Rigid.of_msg.
  cbn [tf2.m_basis tf2.m_origin Rigid.R Rigid.origin].
  rewrite !setRotation_standard, getRotation_standard.
  by destruct (Rigid.quaternion_of _), (Rigid.vec_add _ _).
Qed.

(** ** The claims about [image_callback] *)

Section Pipeline.

Variable Image : Type.
Variable W : World Image.
Variable node : ArucoRos2Node.
Variable msg : ImageMsg Image.

(** Every record the callback stores sits at the index of its
    candidate, behind the broadcast of that candidate. *)
Lemma image_callback_records (i : nat) (m : Marker) :
  cb_markers (image_callback W node msg) !! i = Some m ->
  ∃ image marker_corners marker_ids rvecs tvecs t map_to_camera,
    observes W node msg image marker_corners marker_ids rvecs tvecs
    ∧ broadcasts (cb_events (image_callback W node msg)) !! i = Some t
    ∧ located W node marker_ids rvecs tvecs i t
    ∧ recorded W node msg marker_ids marker_corners i t map_to_camera m.
Proof.
  intros Hm.
  destruct (image_callback_inv Image W node msg)
    as [(_ & Hnone & _)|(image & marker_corners & marker_ids & rvecs & tvecs & Hobs)].
  { by rewrite Hnone in Hm. }
  rewrite (image_callback_observes _ _ _ _ _ _ _ _ _ Hobs) in Hm |- *.
  rewrite leave_frame_markers in Hm. rewrite leave_frame_broadcasts.
  destruct (loop_records Image W node msg marker_ids marker_corners rvecs tvecs
              (length marker_ids) 0 [] image) as (new & Hnew & _ & Hloc & Hrec).
  simpl in Hnew. rewrite Hnew in Hm.
  destruct (Hrec i m Hm) as (t & map_to_camera & Ht & Hrecorded).
  exists image, marker_corners, marker_ids, rvecs, tvecs, t, map_to_camera.
  split; [exact Hobs|]. split; [exact Ht|]. split; [|exact Hrecorded].
  exact (Hloc i t Ht).
Qed.

(** C4: an image that arrives while no calibration has been received
    is skipped: the callback only logs, it publishes no marker array and
    no image and broadcasts no transform. *)
Theorem uncalibrated_frame_skipped :
  received_camera_info_ node = false ->
  image_callback W node msg
  = mkCallback [Log INFO "Waiting for camera info." []] [] WaitingForCameraInfo
  ∧ published_marker_arrays (cb_events (image_callback W node msg)) = []
  ∧ broadcasts (cb_events (image_callback W node msg)) = []
  ∧ published_images (cb_events (image_callback W node msg)) = [].
Proof.
  intros Hwaiting.
  assert (image_callback W node msg
          = mkCallback [Log INFO "Waiting for camera info." []] [] WaitingForCameraInfo)
    as ->; [|by repeat split].
  unfold image_callback. by rewrite Hwaiting.
Qed.

(** An image cv_bridge cannot convert is dropped with an error log; a
    calibrated node publishes and broadcasts nothing for it. *)
Theorem undecodable_frame_skipped (what : string) :
  received_camera_info_ node = true ->
  toCvCopy W msg = inl what ->
  image_callback W node msg
  = mkCallback [Log ERROR "CV Bridge exception: %s" [ArgString what]] []
               (DecodeFailed what).
Proof.
  intros Hready Hthrown. unfold image_callback. by rewrite Hready, Hthrown.
Qed.

(** C5, as the code has it: with calibration received, the image
    decoded and nothing detected, the callback publishes the decoded image
    without any overlay under the input's header, bgr8-encoded, and exactly
    one marker array, empty, in frame "map", stamped with the reading of
    the node clock taken when the callback started. *)
Theorem empty_detection_published (image : Image)
    (dict : cv.PREDEFINED_DICTIONARY_NAME) (marker_corners : list (list cv.Point2f)) :
  received_camera_info_ node = true ->
  toCvCopy W msg = inr image ->
  aruco_dict_ node = Some dict ->
  detectMarkers W image dict = (marker_corners, []) ->
  cb_events (image_callback W node msg)
  = [ PublishImage (mkImageMsg (im_header msg) "bgr8" image);
      PublishMarkerArray (mkMarkerArray (mkHeader (now W 0) "map") []) ]
  ∧ cb_outcome (image_callback W node msg) = Published.
Proof.
  intros Hready Himage Hdict Hnone.
  unfold image_callback, detect_and_locate.
  by rewrite Hready, Himage, Hdict, Hnone.
Qed.

(** C1, as the code has it: a frame whose marker loop is left early
    publishes neither the image nor a marker array. *)
Theorem aborted_frame_publishes_nothing (why : Abort) :
  cb_outcome (image_callback W node msg) = Aborted why ->
  published_images (cb_events (image_callback W node msg)) = []
  ∧ published_marker_arrays (cb_events (image_callback W node msg)) = [].
Proof.
  intros Haborted.
  destruct (image_callback_inv Image W node msg)
    as [(_ & _ & Harrays & Himages & _)
       |(image & marker_corners & marker_ids & rvecs & tvecs & Hobs)]; [done|].
  rewrite (image_callback_observes _ _ _ _ _ _ _ _ _ Hobs) in Haborted |- *.
  set (r := marker_loop W node msg marker_ids marker_corners rvecs tvecs
                        (length marker_ids) 0 [] image) in *.
  destruct (loop_publishes_nothing Image W node msg marker_ids marker_corners
              rvecs tvecs (length marker_ids) 0 [] image) as [Himages Harrays].
  destruct (lp_exit r) as [why'|] eqn:Hexit.
  - by destruct (leave_frame_aborted Image W msg r why' Himages Harrays Hexit)
      as (_ & ? & ? & _).
  - unfold leave_frame in Haborted. by rewrite Hexit in Haborted.
Qed.

(** C7: every record the callback stores has a broadcast of its own,
    from the configured camera frame to "aruco_marker_<id>" for the
    record's id (the decimal digits of the id, so that no other id gives
    the same frame), stamped with the clock reading taken while that
    marker was processed; the record itself carries the stamp of the image
    and the frame "map". *)
Theorem marker_frames_and_stamps (i : nat) (m : Marker) :
  cb_markers (image_callback W node msg) !! i = Some m ->
  ∃ t,
    broadcasts (cb_events (image_callback W node msg)) !! i = Some t
    ∧ frame_id (geometry_msgs.header t) = camera_frame_ node
    ∧ geometry_msgs.child_frame_id t = "aruco_marker_" +:+ to_string (mk_id m)
    ∧ (∀ id, id ≠ mk_id m ->
         geometry_msgs.child_frame_id t ≠ "aruco_marker_" +:+ to_string id)
    ∧ stamp (geometry_msgs.header t) = now W (S i)
    ∧ stamp (mk_header m) = stamp (im_header msg)
    ∧ frame_id (mk_header m) = "map".
Proof.
  intros Hm.
  destruct (image_callback_records i m Hm)
    as (image & marker_corners & marker_ids & rvecs & tvecs & t & map_to_camera
        & _ & Ht & Hloc & Hrec).
  exists t. split; [exact Ht|].
  destruct Hloc as (id & rv & tv & Hid & _ & _ & ->).
  destruct Hrec as (corner & _ & _ & Hid' & ->). simpl in *.
  rewrite Hid in Hid'. injection Hid' as ->. repeat split.
  intros id' Hne [= Heq]. by apply Hne, eq_sym, to_string_inj.
Qed.

(** C8: the pose of every stored record is the rigid composition of
    the transform the tf buffer returned for "map" to the camera frame
    with the transform broadcast for that marker, each read as the rotation
    matrix of its quaternion and its translation: position
    [R_map_to_camera . t_camera_to_marker + t_map_to_camera], orientation
    the quaternion of the matrix product
    [R_map_to_camera . R_camera_to_marker]. *)
Theorem marker_pose_is_rigid_composition (i : nat) (m : Marker) :
  cb_markers (image_callback W node msg) !! i = Some m ->
  ∃ camera_to_marker map_to_camera,
    broadcasts (cb_events (image_callback W node msg)) !! i = Some camera_to_marker
    ∧ lookupTransform W i "map" (camera_frame_ node) = inr map_to_camera
    ∧ let a := Rigid.of_msg (geometry_msgs.transform map_to_camera) in
      let b := Rigid.of_msg (geometry_msgs.transform camera_to_marker) in
      geometry_msgs.position (mk_pose m)
      = Rigid.vec_add (Rigid.mat_vec (Rigid.R a) (Rigid.origin b)) (Rigid.origin a)
      ∧ geometry_msgs.orientation (mk_pose m)
        = Rigid.quaternion_of (Rigid.mat_mul (Rigid.R a) (Rigid.R b))
      ∧ mk_pose m
        = geometry_msgs.mkPose (Rigid.origin (Rigid.compose a b))
                               (Rigid.quaternion_of (Rigid.R (Rigid.compose a b))).
Proof.
  intros Hm.
  destruct (image_callback_records i m Hm)
    as (image & marker_corners & marker_ids & rvecs & tvecs & t & map_to_camera
        & _ & Ht & _ & Hrec).
  exists t, map_to_camera. split; [exact Ht|].
  destruct Hrec as (corner & Hlookup & _ & _ & ->). split; [exact Hlookup|].
  intros a b. cbn [mk_pose]. rewrite compose_marker_pose_rigid. by repeat split.
Qed.

(** The only test on a pose is the emptiness of its two rows: whatever
    the rows of the first candidate hold (NaN included), its transform is
    broadcast. *)
Theorem present_pose_is_broadcast (image : Image)
    (marker_corners : list (list cv.Point2f)) (marker_ids : list Z)
    (rvecs tvecs : list cv.Row) (id : Z) (rv tv : Vector3) :
  observes W node msg image marker_corners marker_ids rvecs tvecs ->
  marker_ids !! 0%nat = Some id ->
  rvecs !! 0%nat = Some (Some rv) ->
  tvecs !! 0%nat = Some (Some tv) ->
  broadcasts (cb_events (image_callback W node msg)) !! 0%nat
  = Some (make_marker_transform W node (now W 1) id rv tv)
  ∧ geometry_msgs.translation
      (geometry_msgs.transform (make_marker_transform W node (now W 1) id rv tv))
    = tv.
Proof.
  intros Hobs Hid Hr Ht. split; [|by destruct tv].
  rewrite (image_callback_observes _ _ _ _ _ _ _ _ _ Hobs), leave_frame_broadcasts.
  destruct marker_ids as [|id' rest]; [done|]. simpl.
  unfold process_marker. rewrite Hr, Ht, Hid.
  destruct (lookupTransform W 0 "map" (camera_frame_ node)); [done|].
  by destruct (marker_corners !! 0%nat ≫= _).
Qed.

(** C3, as the code has it: the only pose the loop refuses is one with
    an empty rotation or translation row. When the estimator leaves such a
    row at index k (of a frame whose detector returned a corner list per
    id), the callback stops at the first index j, not beyond k, at which
    something goes wrong: at an empty row, with j broadcasts, j records
    and the one warning "Pose estimation failed for marker."; or before
    k, where the lookup of "map" failed, with j + 1 broadcasts, j records
    and the one warning "TF2 exception: %s". Nothing is published, and
    every broadcast and every stored record belongs to a candidate before
    k. *)
Theorem empty_pose_aborts_frame (image : Image)
    (marker_corners : list (list cv.Point2f)) (marker_ids : list Z)
    (rvecs tvecs : list cv.Row) (k : nat) :
  observes W node msg image marker_corners marker_ids rvecs tvecs ->
  (k < length marker_ids)%nat ->
  empty_pose rvecs tvecs k ->
  (∀ l, (l < k)%nat -> is_Some (marker_corners !! l ≫= (λ corners, corners !! 0%nat))) ->
  let r := image_callback W node msg in
  (∃ j, (j ≤ k)%nat
     ∧ length (cb_markers r) = j
     ∧ ((empty_pose rvecs tvecs j
         ∧ cb_outcome r = Aborted PoseEstimationFailed
         ∧ warnings (cb_events r) = ["Pose estimation failed for marker."]
         ∧ length (broadcasts (cb_events r)) = j)
        ∨ ((j < k)%nat
           ∧ ∃ what,
               lookupTransform W j "map" (camera_frame_ node) = inl what
               ∧ cb_outcome r = Aborted (TransformLookupFailed what)
               ∧ warnings (cb_events r) = ["TF2 exception: %s"]
               ∧ length (broadcasts (cb_events r)) = S j)))
  ∧ published_marker_arrays (cb_events r) = []
  ∧ published_images (cb_events r) = []
  ∧ (∀ l t, broadcasts (cb_events r) !! l = Some t ->
       (l < k)%nat
       ∧ ∃ id, marker_ids !! l = Some id
               ∧ geometry_msgs.child_frame_id t = marker_frame id)
  ∧ (∀ l m, cb_markers r !! l = Some m ->
       (l < k)%nat ∧ marker_ids !! l = Some (mk_id m)).
Proof.
  intros Hobs Hk Hdeg Hcorners r. subst r.
  rewrite (image_callback_observes _ _ _ _ _ _ _ _ _ Hobs).
  set (r := marker_loop W node msg marker_ids marker_corners rvecs tvecs
                        (length marker_ids) 0 [] image).
  destruct (loop_publishes_nothing Image W node msg marker_ids marker_corners
              rvecs tvecs (length marker_ids) 0 [] image) as [Himages Harrays].
  destruct (loop_records Image W node msg marker_ids marker_corners rvecs tvecs
              (length marker_ids) 0 [] image) as (new & Hnew & _ & Hloc & Hrec).
  destruct (loop_empty_pose Image W node msg marker_ids marker_corners rvecs tvecs
              (length marker_ids) 0 [] image k) as (j & Hj & Hm & Hcase);
    [lia|done..|].
  fold r in Himages, Harrays, Hnew, Hloc, Hrec, Hm, Hcase.
  simpl in Hnew, Hm. rewrite Nat.sub_0_r in Hm, Hcase.
  rewrite leave_frame_broadcasts, leave_frame_markers.
  assert (length (broadcasts (lp_events r)) ≤ k)%nat as Hbefore.
  { destruct Hcase as [(_ & _ & _ & ->)|(? & what & _ & _ & _ & ->)]; lia. }
  assert (∃ why, lp_exit r = Some why) as [why Hexit].
  { destruct Hcase as [(_ & ? & _)|(_ & what & _ & ? & _)]; eauto. }
  destruct (leave_frame_aborted Image W msg r why Himages Harrays Hexit)
    as (Houtcome & -> & -> & Hwarn).
  split; [|split; [done|split; [done|split]]].
  - exists j. split; [lia|]. split; [exact Hm|].
    destruct Hcase as [(Hd & Hexit' & Hw & Hb)|(Hlt & what & Hfail & Hexit' & Hw & Hb)];
      rewrite Hexit' in Hexit; injection Hexit as <-;
      rewrite Houtcome, Hwarn, Hw.
    + left. by repeat split.
    + right. split; [done|]. exists what. by repeat split.
  - intros l t Hl. split; [apply lookup_lt_Some in Hl; lia|].
    destruct (Hloc l t Hl) as (id & rv & tv & Hid & _ & _ & ->). by exists id.
  - intros l m. rewrite Hnew. intros Hl.
    destruct (Hrec l m Hl) as (t & map_to_camera & Ht & corner & _ & _ & Hid & _).
    split; [apply lookup_lt_Some in Ht; lia|exact Hid].
Qed.

(** The rows of one matrix are all empty or none is. So when the
    estimator hands back a rotation or a translation matrix with an empty
    row, whatever its index, the callback stops at the first candidate: it
    logs the warning and does nothing else. *)
Theorem empty_pose_matrix_aborts_at_first_candidate (image : Image)
    (marker_corners : list (list cv.Point2f)) (marker_ids : list Z)
    (rvecs tvecs : list cv.Row) (k : nat) :
  observes W node msg image marker_corners marker_ids rvecs tvecs ->
  marker_ids ≠ [] ->
  cv.one_matrix rvecs -> cv.one_matrix tvecs ->
  empty_pose rvecs tvecs k ->
  image_callback W node msg
  = mkCallback [Log WARN "Pose estimation failed for marker." []] []
               (Aborted PoseEstimationFailed).
Proof.
  intros Hobs Hids Hrvecs Htvecs (rvec & tvec & Hr & Ht & Hempty).
  assert (empty_pose rvecs tvecs 0) as Hfirst.
  { destruct (lookup_lt_is_Some_2 rvecs 0) as [r0 Hr0];
      [apply lookup_lt_Some in Hr; lia|].
    destruct (lookup_lt_is_Some_2 tvecs 0) as [t0 Ht0];
      [apply lookup_lt_Some in Ht; lia|].
    exists r0, t0. split; [done|]. split; [done|].
    apply orb_true_iff in Hempty as [Hempty|Hempty]; apply orb_true_iff; [left|right].
    - destruct Htvecs as [Hall|Hall].
      + exact (proj1 (Forall_lookup _ _) Hall 0%nat t0 Ht0).
      + pose proof (proj1 (Forall_lookup _ _) Hall k tvec Ht) as Hfull.
        simpl in Hfull. congruence.
    - destruct Hrvecs as [Hall|Hall].
      + exact (proj1 (Forall_lookup _ _) Hall 0%nat r0 Hr0).
      + pose proof (proj1 (Forall_lookup _ _) Hall k rvec Hr) as Hfull.
        simpl in Hfull. congruence. }
  rewrite (image_callback_observes _ _ _ _ _ _ _ _ _ Hobs).
  destruct marker_ids as [|id rest]; [done|]. simpl.
  by rewrite (body_empty_pose Image W node msg (id :: rest) marker_corners rvecs tvecs
                image 0 Hfirst).
Qed.

(** C2, as the code has it: when the lookup of "map" to the camera
    frame first fails while candidate j is processed (all candidates up to
    j having usable poses), the callback has broadcast j + 1 transforms,
    exactly those of candidates 0 to j in detection order, each from the
    pose rows and the id of its candidate, and stops there with j records
    stored; no marker array and no image is published. With a lookup that
    fails from the start (j = 0) only the first of two markers is
    broadcast. *)
Theorem failed_lookup_stops_after_broadcast (image : Image)
    (marker_corners : list (list cv.Point2f)) (marker_ids : list Z)
    (rvecs tvecs : list cv.Row) (j : nat) (what : string) :
  observes W node msg image marker_corners marker_ids rvecs tvecs ->
  (j < length marker_ids)%nat ->
  (∀ l, (l ≤ j)%nat ->
     ∃ rv tv, rvecs !! l = Some (Some rv) ∧ tvecs !! l = Some (Some tv)) ->
  (∀ l, (l < j)%nat ->
     (∃ map_to_camera, lookupTransform W l "map" (camera_frame_ node) = inr map_to_camera)
     ∧ is_Some (marker_corners !! l ≫= (λ corners, corners !! 0%nat))) ->
  lookupTransform W j "map" (camera_frame_ node) = inl what ->
  let r := image_callback W node msg in
  cb_outcome r = Aborted (TransformLookupFailed what)
  ∧ length (broadcasts (cb_events r)) = S j
  ∧ (∀ l t, broadcasts (cb_events r) !! l = Some t ->
       located W node marker_ids rvecs tvecs l t)
  ∧ geometry_msgs.child_frame_id <$> broadcasts (cb_events r)
    = marker_frame <$> take (S j) marker_ids
  ∧ length (cb_markers r) = j
  ∧ published_marker_arrays (cb_events r) = []
  ∧ published_images (cb_events r) = []
  ∧ warnings (cb_events r) = ["TF2 exception: %s"].
Proof.
  intros Hobs Hj Hposes Hbefore Hfail r. subst r.
  rewrite (image_callback_observes _ _ _ _ _ _ _ _ _ Hobs).
  set (r := marker_loop W node msg marker_ids marker_corners rvecs tvecs
                        (length marker_ids) 0 [] image).
  destruct (loop_publishes_nothing Image W node msg marker_ids marker_corners
              rvecs tvecs (length marker_ids) 0 [] image) as [Himages Harrays].
  destruct (loop_records Image W node msg marker_ids marker_corners rvecs tvecs
              (length marker_ids) 0 [] image) as (new & _ & _ & Hloc & _).
  destruct (loop_lookup_failed Image W node msg marker_ids marker_corners rvecs tvecs
              (length marker_ids) 0 [] image j what) as (Hexit & Hb & Hm & Hw);
    [lia| |done..|].
  { intros l Hl. destruct (Hposes l Hl) as (rv & tv & Hr & Ht).
    destruct (lookup_lt_is_Some_2 marker_ids l) as [id Hid]; [lia|].
    eexists. by exists id, rv, tv. }
  fold r in Himages, Harrays, Hloc, Hexit, Hb, Hm, Hw.
  rewrite Nat.sub_0_r in Hb, Hm. simpl in Hm.
  destruct (leave_frame_aborted Image W msg r _ Himages Harrays Hexit)
    as (-> & -> & -> & ->).
  rewrite leave_frame_broadcasts, leave_frame_markers, Hb, Hm, Hw.
  split; [done|]. split; [done|]. split; [exact Hloc|]. split; [|done].
  apply list_eq. intros l. rewrite !list_lookup_fmap.
  destruct (broadcasts (lp_events r) !! l) as [t|] eqn:Hl; simpl.
  - destruct (Hloc l t Hl) as (id & rv & tv & Hid & _ & _ & ->). simpl in Hid.
    apply lookup_lt_Some in Hl. rewrite Hb in Hl.
    by rewrite lookup_take_lt, Hid by lia.
  - apply lookup_ge_None in Hl. rewrite Hb in Hl.
    by rewrite lookup_take_ge by lia.
Qed.

(** The frame in which everything succeeds: every candidate has a
    usable pose, the tf buffer answers, and the detector returned a corner
    list per id. The callback broadcasts one transform per candidate,
    "aruco_marker_<id>" in detection order, and publishes the image and
    exactly one marker array whose records carry the ids in detection
    order. *)
Theorem located_frame_published (image : Image)
    (marker_corners : list (list cv.Point2f)) (marker_ids : list Z)
    (rvecs tvecs : list cv.Row) :
  observes W node msg image marker_corners marker_ids rvecs tvecs ->
  (∀ l, (l < length marker_ids)%nat ->
     (∃ rv tv, rvecs !! l = Some (Some rv) ∧ tvecs !! l = Some (Some tv))
     ∧ (∃ map_to_camera, lookupTransform W l "map" (camera_frame_ node) = inr map_to_camera)
     ∧ is_Some (marker_corners !! l ≫= (λ corners, corners !! 0%nat))) ->
  let r := image_callback W node msg in
  cb_outcome r = Published
  ∧ geometry_msgs.child_frame_id <$> broadcasts (cb_events r)
    = marker_frame <$> marker_ids
  ∧ (∃ ma, published_marker_arrays (cb_events r) = [ma]
           ∧ ma_header ma = mkHeader (now W 0) "map"
           ∧ mk_id <$> markers ma = marker_ids)
  ∧ (∃ picture, published_images (cb_events r)
                = [mkImageMsg (im_header msg) "bgr8" picture]).
Proof.
  intros Hobs Hall r. subst r.
  rewrite (image_callback_observes _ _ _ _ _ _ _ _ _ Hobs).
  set (r := marker_loop W node msg marker_ids marker_corners rvecs tvecs
                        (length marker_ids) 0 [] image).
  destruct (loop_publishes_nothing Image W node msg marker_ids marker_corners
              rvecs tvecs (length marker_ids) 0 [] image) as [Himages Harrays].
  destruct (loop_records Image W node msg marker_ids marker_corners rvecs tvecs
              (length marker_ids) 0 [] image) as (new & Hnew & _ & Hloc & Hrec).
  destruct (loop_completes Image W node msg marker_ids marker_corners rvecs tvecs
              (length marker_ids) 0 [] image) as (Hexit & Hb & Hm & _).
  { intros l Hl. destruct (Hall l) as ((rv & tv & Hr & Ht) & Hok & Hcorner); [lia|].
    split; [|by split].
    destruct (lookup_lt_is_Some_2 marker_ids l) as [id Hid]; [lia|].
    eexists. by exists id, rv, tv. }
  fold r in Himages, Harrays, Hnew, Hloc, Hrec, Hexit, Hb, Hm.
  simpl in Hnew, Hm. rewrite Hnew in Hm.
  unfold leave_frame. rewrite Hexit. simpl.
  rewrite broadcasts_app, published_marker_arrays_app, published_images_app,
          Himages, Harrays. simpl. rewrite app_nil_r.
  split; [done|]. split; [|split].
  - apply list_eq. intros j. rewrite !list_lookup_fmap.
    destruct (broadcasts (lp_events r) !! j) as [t|] eqn:Hj; simpl.
    + destruct (Hloc j t Hj) as (id & rv & tv & Hid & _ & _ & ->).
      simpl in Hid. by rewrite Hid.
    + apply lookup_ge_None in Hj. rewrite Hb in Hj.
      by rewrite (lookup_ge_None_2 marker_ids j).
  - eexists. split; [reflexivity|]. split; [reflexivity|]. simpl.
    rewrite Hnew. apply list_eq. intros j. rewrite list_lookup_fmap.
    destruct (new !! j) as [m|] eqn:Hj; simpl.
    + destruct (Hrec j m Hj) as (t & map_to_camera & _ & corner & _ & _ & Hid & _).
      simpl in Hid. by rewrite Hid.
    + apply lookup_ge_None in Hj. rewrite Hm in Hj.
      by rewrite (lookup_ge_None_2 marker_ids j).
  - by eexists.
Qed.

End Pipeline.

(** ** The claims on the concrete frame *)

Lemma uncalibrated_frame_skipped_witness :
  received_camera_info_ Scenario.fresh = false
  ∧ image_callback Scenario.world_ok Scenario.fresh Scenario.frame
    = mkCallback [Log INFO "Waiting for camera info." []] [] WaitingForCameraInfo
  ∧ published_marker_arrays
      (cb_events (image_callback Scenario.world_ok Scenario.fresh Scenario.frame)) = []
  ∧ broadcasts
      (cb_events (image_callback Scenario.world_ok Scenario.fresh Scenario.frame)) = []
  ∧ published_images
      (cb_events (image_callback Scenario.world_ok Scenario.fresh Scenario.frame)) = [].
Proof.
  split; [reflexivity|].
  exact (uncalibrated_frame_skipped Scenario.Picture Scenario.world_ok Scenario.fresh
           Scenario.frame eq_refl).
Defined.

Lemma empty_detection_published_witness :
  cb_events (image_callback Scenario.world_empty Scenario.calibrated Scenario.frame)
  = [ PublishImage (mkImageMsg (im_header Scenario.frame) "bgr8" []);
      PublishMarkerArray
        (mkMarkerArray (mkHeader (now Scenario.world_empty 0) "map") []) ]
  ∧ cb_outcome (image_callback Scenario.world_empty Scenario.calibrated Scenario.frame)
    = Published.
Proof.
  exact (empty_detection_published Scenario.Picture Scenario.world_empty
           Scenario.calibrated Scenario.frame [] cv.DICT_4X4_1000 []
           eq_refl eq_refl eq_refl eq_refl).
Defined.

(** C5, the claim as stated fails: with calibration received and
    nothing detected, the one marker array published carries the clock
    reading (20 s), not the stamp of the frame (5 s). *)
Lemma empty_set_stamp_is_not_frame_stamp :
  received_camera_info_ Scenario.calibrated = true
  ∧ detectMarkers Scenario.world_empty (data Scenario.frame) cv.DICT_4X4_1000 = ([], [])
  ∧ ∃ ma,
      published_marker_arrays
        (cb_events (image_callback Scenario.world_empty Scenario.calibrated Scenario.frame))
      = [ma]
      ∧ markers ma = []
      ∧ stamp (ma_header ma) = mkTime 20 0
      ∧ stamp (im_header Scenario.frame) = mkTime 5 0
      ∧ stamp (ma_header ma) ≠ stamp (im_header Scenario.frame).
Proof.
  split; [reflexivity|]. split; [reflexivity|].
  exists (mkMarkerArray (mkHeader (mkTime 20 0) "map") []).
  repeat split; try reflexivity. discriminate.
Qed.

Lemma aborted_frame_publishes_nothing_witness :
  cb_outcome (image_callback Scenario.world_tf_lost Scenario.calibrated Scenario.frame)
  = Aborted (TransformLookupFailed Scenario.no_connection)
  ∧ published_images
      (cb_events (image_callback Scenario.world_tf_lost Scenario.calibrated
                                 Scenario.frame)) = []
  ∧ published_marker_arrays
      (cb_events (image_callback Scenario.world_tf_lost Scenario.calibrated
                                 Scenario.frame)) = [].
Proof.
  split; [reflexivity|].
  exact (aborted_frame_publishes_nothing Scenario.Picture Scenario.world_tf_lost
           Scenario.calibrated Scenario.frame
           (TransformLookupFailed Scenario.no_connection) eq_refl).
Defined.

(** C1, the claim as stated fails: two markers are located, the map is
    known while the first is processed and the lookup throws for the
    second. The record of marker 7 was completed before the abort and both
    transforms were broadcast, yet neither the image nor any marker array
    is published. *)
Lemma aborted_frame_drops_completed_record :
  let r := image_callback Scenario.world_tf_lost Scenario.calibrated Scenario.frame in
  cb_outcome r = Aborted (TransformLookupFailed Scenario.no_connection)
  ∧ cb_markers r = [Scenario.marker_7]
  ∧ geometry_msgs.child_frame_id <$> broadcasts (cb_events r)
    = ["aruco_marker_7"; "aruco_marker_12"]
  ∧ published_images (cb_events r) = []
  ∧ published_marker_arrays (cb_events r) = [].
Proof. by vm_compute. Qed.

Lemma observes_no_tf :
  observes Scenario.world_no_tf Scenario.calibrated Scenario.frame []
           Scenario.corners_7_12 [7; 12]%Z
           [Some Scenario.zero3; Some Scenario.zero3]
           [Some Scenario.t7; Some Scenario.t12].
Proof. repeat split. exists cv.DICT_4X4_1000. by split. Defined.

Lemma observes_no_columns :
  observes Scenario.world_no_columns Scenario.calibrated Scenario.frame []
           Scenario.corners_7_12 [7; 12]%Z
           [Some Scenario.zero3; Some Scenario.zero3] [None; None].
Proof. repeat split. exists cv.DICT_4X4_1000. by split. Defined.

Lemma failed_lookup_stops_after_broadcast_witness :
  let r := image_callback Scenario.world_no_tf Scenario.calibrated Scenario.frame in
  cb_outcome r
  = Aborted (TransformLookupFailed
               "map passed to lookupTransform argument target_frame does not exist")
  ∧ length (broadcasts (cb_events r)) = 1%nat
  ∧ (∀ l t, broadcasts (cb_events r) !! l = Some t ->
       located Scenario.world_no_tf Scenario.calibrated [7; 12]%Z
               [Some Scenario.zero3; Some Scenario.zero3]
               [Some Scenario.t7; Some Scenario.t12] l t)
  ∧ geometry_msgs.child_frame_id <$> broadcasts (cb_events r) = ["aruco_marker_7"]
  ∧ length (cb_markers r) = 0%nat
  ∧ published_marker_arrays (cb_events r) = []
  ∧ published_images (cb_events r) = []
  ∧ warnings (cb_events r) = ["TF2 exception: %s"].
Proof.
  apply (failed_lookup_stops_after_broadcast Scenario.Picture Scenario.world_no_tf
           Scenario.calibrated Scenario.frame [] Scenario.corners_7_12 [7; 12]%Z
           [Some Scenario.zero3; Some Scenario.zero3]
           [Some Scenario.t7; Some Scenario.t12] 0
           "map passed to lookupTransform argument target_frame does not exist"
           observes_no_tf).
  - simpl. lia.
  - intros l Hl. assert (l = 0%nat) as -> by lia.
    exists Scenario.zero3, Scenario.t7. by split.
  - intros l Hl. lia.
  - reflexivity.
Defined.

(** C2, the claim as stated fails: two markers with usable poses are
    detected and the lookup of "map" to the camera frame fails; one
    transform is broadcast, that of marker 7, not two. *)
Lemma failed_lookup_broadcasts_first_marker_only :
  let r := image_callback Scenario.world_no_tf Scenario.calibrated Scenario.frame in
  received_camera_info_ Scenario.calibrated = true
  ∧ detectMarkers Scenario.world_no_tf (data Scenario.frame) cv.DICT_4X4_1000
    = (Scenario.corners_7_12, [7; 12]%Z)
  ∧ geometry_msgs.child_frame_id <$> broadcasts (cb_events r) = ["aruco_marker_7"]
  ∧ length (broadcasts (cb_events r)) ≠ 2%nat
  ∧ published_marker_arrays (cb_events r) = [].
Proof. by vm_compute. Qed.

Lemma empty_pose_aborts_frame_witness :
  let r := image_callback Scenario.world_no_columns Scenario.calibrated Scenario.frame in
  (∃ j, (j ≤ 0)%nat
     ∧ length (cb_markers r) = j
     ∧ ((empty_pose [Some Scenario.zero3; Some Scenario.zero3] [None; None] j
         ∧ cb_outcome r = Aborted PoseEstimationFailed
         ∧ warnings (cb_events r) = ["Pose estimation failed for marker."]
         ∧ length (broadcasts (cb_events r)) = j)
        ∨ ((j < 0)%nat
           ∧ ∃ what,
               lookupTransform Scenario.world_no_columns j "map"
                               "camera_rgb_optical_frame" = inl what
               ∧ cb_outcome r = Aborted (TransformLookupFailed what)
               ∧ warnings (cb_events r) = ["TF2 exception: %s"]
               ∧ length (broadcasts (cb_events r)) = S j)))
  ∧ published_marker_arrays (cb_events r) = []
  ∧ published_images (cb_events r) = []
  ∧ (∀ l t, broadcasts (cb_events r) !! l = Some t ->
       (l < 0)%nat
       ∧ ∃ id, [7; 12]%Z !! l = Some id
               ∧ geometry_msgs.child_frame_id t = marker_frame id)
  ∧ (∀ l m, cb_markers r !! l = Some m ->
       (l < 0)%nat ∧ [7; 12]%Z !! l = Some (mk_id m)).
Proof.
  apply (empty_pose_aborts_frame Scenario.Picture Scenario.world_no_columns
           Scenario.calibrated Scenario.frame [] Scenario.corners_7_12 [7; 12]%Z
           [Some Scenario.zero3; Some Scenario.zero3] [None; None] 0
           observes_no_columns).
  - simpl. lia.
  - exists (Some Scenario.zero3), None. by repeat split.
  - intros l Hl. lia.
Defined.

(** C3, the claim as stated fails: the estimator fills the translation
    of the first of two markers with NaN, a degenerate pose. No warning is
    emitted and nothing is aborted: both markers are broadcast and
    recorded, the NaN translation goes out in the first transform, and the
    image and the marker array are published. *)
Lemma nan_pose_is_processed :
  let r := image_callback Scenario.world_nan Scenario.calibrated Scenario.frame in
  (estimatePoseSingleMarkers Scenario.world_nan Scenario.corners_7_12
     (narrow (marker_size_ Scenario.calibrated))
     (read_camera_matrix Scenario.world_nan Scenario.calibrated 0)
     (camera_distortion_ Scenario.calibrated)).2 !! 0%nat
  = Some (Some Scenario.not_a_number)
  ∧ PrimFloat.is_nan (vx Scenario.not_a_number) = true
  ∧ cb_outcome r = Published
  ∧ warnings (cb_events r) = []
  ∧ geometry_msgs.child_frame_id <$> broadcasts (cb_events r)
    = ["aruco_marker_7"; "aruco_marker_12"]
  ∧ (geometry_msgs.translation ∘ geometry_msgs.transform <$> broadcasts (cb_events r))
    !! 0%nat = Some Scenario.not_a_number
  ∧ mk_id <$> cb_markers r = [7; 12]%Z
  ∧ length (published_marker_arrays (cb_events r)) = 1%nat
  ∧ length (published_images (cb_events r)) = 1%nat.
Proof. by vm_compute. Qed.

Lemma marker_frames_and_stamps_witness :
  cb_markers (image_callback Scenario.world_ok Scenario.calibrated Scenario.frame) !! 1%nat
  = Some Scenario.marker_12
  ∧ ∃ t,
      broadcasts
        (cb_events (image_callback Scenario.world_ok Scenario.calibrated Scenario.frame))
        !! 1%nat = Some t
      ∧ frame_id (geometry_msgs.header t) = "camera_rgb_optical_frame"
      ∧ geometry_msgs.child_frame_id t = "aruco_marker_12"
      ∧ (∀ id, id ≠ 12%Z ->
           geometry_msgs.child_frame_id t ≠ "aruco_marker_" +:+ to_string id)
      ∧ stamp (geometry_msgs.header t) = mkTime 22 0
      ∧ stamp (mk_header Scenario.marker_12) = mkTime 5 0
      ∧ frame_id (mk_header Scenario.marker_12) = "map".
Proof.
  split; [reflexivity|].
  exact (marker_frames_and_stamps Scenario.Picture Scenario.world_ok Scenario.calibrated
           Scenario.frame 1 Scenario.marker_12 eq_refl).
Defined.

Lemma marker_pose_is_rigid_composition_witness :
  (cb_markers (image_callback Scenario.world_optical Scenario.calibrated Scenario.frame)
     !! 1%nat = Some Scenario.marker_12_ahead
   ∧ mk_pose Scenario.marker_12_ahead
     = geometry_msgs.mkPose (mkVector3 3 2.5 0.375) (mkQuaternion 0.5 (-0.5) 0.5 (-0.5))
   ∧ Rigid.rotation_matrix
       (geometry_msgs.rotation (geometry_msgs.transform Scenario.map_to_optical))
     = mkMatrix3x3 0 0 1 (-1) 0 0 0 (-1) 0
   ∧ geometry_msgs.orientation (mk_pose Scenario.marker_12_ahead)
     = Rigid.negate
         (Rigid.quaternion_mul
            (geometry_msgs.rotation (geometry_msgs.transform Scenario.map_to_optical))
            (mkQuaternion 0 0 0 1)))
  ∧ ∃ camera_to_marker map_to_camera,
      broadcasts
        (cb_events (image_callback Scenario.world_optical Scenario.calibrated
                                   Scenario.frame))
        !! 1%nat = Some camera_to_marker
      ∧ lookupTransform Scenario.world_optical 1 "map" "camera_rgb_optical_frame"
        = inr map_to_camera
      ∧ let a := Rigid.of_msg (geometry_msgs.transform map_to_camera) in
        let b := Rigid.of_msg (geometry_msgs.transform camera_to_marker) in
        geometry_msgs.position (mk_pose Scenario.marker_12_ahead)
        = Rigid.vec_add (Rigid.mat_vec (Rigid.R a) (Rigid.origin b)) (Rigid.origin a)
        ∧ geometry_msgs.orientation (mk_pose Scenario.marker_12_ahead)
          = Rigid.quaternion_of (Rigid.mat_mul (Rigid.R a) (Rigid.R b))
        ∧ mk_pose Scenario.marker_12_ahead
          = geometry_msgs.mkPose (Rigid.origin (Rigid.compose a b))
                                 (Rigid.quaternion_of (Rigid.R (Rigid.compose a b))).
Proof.
  split; [by vm_compute|].
  exact (marker_pose_is_rigid_composition Scenario.Picture Scenario.world_optical
           Scenario.calibrated Scenario.frame 1 Scenario.marker_12_ahead eq_refl).
Defined.

Lemma observes_ok :
  observes Scenario.world_ok Scenario.calibrated Scenario.frame []
           Scenario.corners_7_12 [7; 12]%Z
           [Some Scenario.zero3; Some Scenario.zero3]
           [Some Scenario.t7; Some Scenario.t12].
Proof. repeat split. exists cv.DICT_4X4_1000. by split. Defined.

Lemma located_frame_published_witness :
  let r := image_callback Scenario.world_ok Scenario.calibrated Scenario.frame in
  cb_outcome r = Published
  ∧ geometry_msgs.child_frame_id <$> broadcasts (cb_events r)
    = marker_frame <$> [7; 12]%Z
  ∧ (∃ ma, published_marker_arrays (cb_events r) = [ma]
           ∧ ma_header ma = mkHeader (now Scenario.world_ok 0) "map"
           ∧ mk_id <$> markers ma = [7; 12]%Z)
  ∧ (∃ picture, published_images (cb_events r)
                = [mkImageMsg (im_header Scenario.frame) "bgr8" picture]).
Proof.
  apply (located_frame_published Scenario.Picture Scenario.world_ok Scenario.calibrated
           Scenario.frame [] Scenario.corners_7_12 [7; 12]%Z
           [Some Scenario.zero3; Some Scenario.zero3]
           [Some Scenario.t7; Some Scenario.t12] observes_ok).
  intros [|[|l]] Hl; [..|simpl in Hl; lia].
  - split; [by eexists _, _|]. split; by eexists.
  - split; [by eexists _, _|]. split; by eexists.
Defined.

Lemma distinct_ids_distinct_frames_witness :
  7%Z ≠ 12%Z ∧ marker_frame 7 ≠ marker_frame 12.
Proof.
  split; [discriminate|].
  apply (distinct_ids_distinct_frames 7 12). discriminate.
Defined.

Lemma undecodable_frame_skipped_witness :
  image_callback Scenario.world_undecodable Scenario.calibrated Scenario.frame
  = mkCallback [Log ERROR "CV Bridge exception: %s"
                    [ArgString "[16UC1] is not a color format"]] []
               (DecodeFailed "[16UC1] is not a color format").
Proof.
  exact (undecodable_frame_skipped Scenario.Picture Scenario.world_undecodable
           Scenario.calibrated Scenario.frame "[16UC1] is not a color format"
           eq_refl eq_refl).
Defined.

Lemma observes_nan :
  observes Scenario.world_nan Scenario.calibrated Scenario.frame []
           Scenario.corners_7_12 [7; 12]%Z
           [Some Scenario.zero3; Some Scenario.zero3]
           [Some Scenario.not_a_number; Some Scenario.t12].
Proof. repeat split. exists cv.DICT_4X4_1000. by split. Defined.

Lemma present_pose_is_broadcast_witness :
  broadcasts
    (cb_events (image_callback Scenario.world_nan Scenario.calibrated Scenario.frame))
    !! 0%nat
  = Some (make_marker_transform Scenario.world_nan Scenario.calibrated
            (now Scenario.world_nan 1) 7 Scenario.zero3 Scenario.not_a_number)
  ∧ geometry_msgs.translation
      (geometry_msgs.transform
         (make_marker_transform Scenario.world_nan Scenario.calibrated
            (now Scenario.world_nan 1) 7 Scenario.zero3 Scenario.not_a_number))
    = Scenario.not_a_number.
Proof.
  exact (present_pose_is_broadcast Scenario.Picture Scenario.world_nan
           Scenario.calibrated Scenario.frame [] Scenario.corners_7_12 [7; 12]%Z
           [Some Scenario.zero3; Some Scenario.zero3]
           [Some Scenario.not_a_number; Some Scenario.t12] 7
           Scenario.zero3 Scenario.not_a_number observes_nan eq_refl eq_refl eq_refl).
Defined.

(** * Beyond the single claims *)

(** ** More about the loop *)

Lemma infos_app (Image : Type) (evs evs' : list (Event Image)) :
  infos (evs ++ evs') = infos evs ++ infos evs'.
Proof. apply omap_app. Qed.

Section LoopFacts.

Variable Image : Type.
Variable W : World Image.
Variable node : ArucoRos2Node.
Variable msg : ImageMsg Image.
Variable marker_ids : list Z.
Variable marker_corners : list (list cv.Point2f).
Variables rvecs tvecs : list cv.Row.

Local Abbreviation body := (process_marker W node msg marker_ids marker_corners rvecs tvecs).
Local Abbreviation loop := (marker_loop W node msg marker_ids marker_corners rvecs tvecs).

Lemma body_infos image i f :
  match body image i with
  | Continue emitted _ _ | Stop emitted _ =>
    f ∈ infos emitted -> f = "Detected marker %d"
  end.
Proof.
  unfold process_marker.
  destruct (rvecs !! i) as [[rv|]|], (tvecs !! i) as [[tv|]|];
    try (simpl; by intros ?%elem_of_nil).
  destruct (marker_ids !! i); [|simpl; by intros ?%elem_of_nil].
  destruct (lookupTransform W i "map" (camera_frame_ node));
    [simpl; by intros ->%list_elem_of_singleton|].
  destruct (marker_corners !! i ≫= _); simpl; by intros ->%list_elem_of_singleton.
Qed.

(** The loop logs at INFO level only the detection of a marker. *)
Lemma loop_infos n i acc image f :
  f ∈ infos (lp_events (loop n i acc image)) -> f = "Detected marker %d".
Proof.
  revert i acc image. induction n as [|n IH]; intros i acc image; simpl.
  { by intros ?%elem_of_nil. }
  pose proof (body_infos image i f) as Hbody.
  destruct (body image i) as [emitted m image'|emitted why]; simpl; [|done].
  rewrite infos_app, elem_of_app. intros [Hin|Hin]; [by apply Hbody|by eapply IH].
Qed.

Lemma body_Continue_image image i emitted m image' :
  body image i = Continue emitted m image' ->
  ∃ rv tv,
    rvecs !! i = Some (Some rv) ∧ tvecs !! i = Some (Some tv)
    ∧ image' = drawAxis W image (read_camera_matrix W node (S i))
                        (camera_distortion_ node)
                        rv tv (narrow (marker_size_ node * 0.5)).
Proof.
  unfold process_marker.
  destruct (rvecs !! i) as [[rv|]|] eqn:Hr; [|by destruct (tvecs !! i) as [[]|]..].
  destruct (tvecs !! i) as [[tv|]|] eqn:Ht; try done.
  destruct (marker_ids !! i) as [id|]; [|done].
  destruct (lookupTransform W i "map" (camera_frame_ node)); [done|].
  destruct (marker_corners !! i ≫= _); [|done].
  intros [= _ _ <-]. by exists rv, tv.
Qed.

(** A loop that ran to its end passed every candidate: one record and
    one broadcast each, one axis drawn for each pose, in index order. *)
Lemma loop_ran_to_end n i acc image :
  let r := loop n i acc image in
  lp_exit r = None ->
  length (lp_markers r) = (length acc + n)%nat
  ∧ length (broadcasts (lp_events r)) = n
  ∧ ∃ rvs tvs,
      length rvs = n ∧ length tvs = n
      ∧ take n (drop i rvecs) = Some <$> rvs
      ∧ take n (drop i tvecs) = Some <$> tvs
      ∧ lp_image r = draw_axes_from W node i image (zip rvs tvs).
Proof.
  revert i acc image. induction n as [|n IH]; intros i acc image; simpl.
  { intros _. split; [lia|]. split; [done|]. by exists [], []. }
  destruct (body image i) as [emitted m image'|emitted why] eqn:Hbody; simpl; [|done].
  intros Hexit.
  destruct (body_Continue_image _ _ _ _ _ Hbody) as (rv & tv & Hr & Ht & ->).
  apply body_Continue in Hbody as (t & map_to_camera & _ & _ & ->).
  destruct (IH (S i) (acc ++ [m]) _ Hexit)
    as (Hm & Hb & rvs & tvs & Hrvs & Htvs & Hr' & Ht' & Himage).
  rewrite Hm, length_app. simpl. split; [lia|]. split; [by rewrite Hb|].
  exists (rv :: rvs), (tv :: tvs). simpl.
  rewrite (drop_S rvecs (Some rv) i Hr), (drop_S tvecs (Some tv) i Ht). simpl.
  rewrite Hr', Ht', Hrvs, Htvs. by repeat split.
Qed.

(** With every index of the loop inside the four containers the loop
    never stops on a fault. *)
Lemma loop_in_bounds n i acc image :
  (i + n ≤ length rvecs)%nat -> (i + n ≤ length tvecs)%nat ->
  (i + n ≤ length marker_ids)%nat ->
  (∀ l, (l < i + n)%nat ->
     is_Some (marker_corners !! l ≫= (λ corners, corners !! 0%nat))) ->
  lp_exit (loop n i acc image) ≠ Some Fault.
Proof.
  revert i acc image. induction n as [|n IH]; intros i acc image Hr Ht Hid Hc; simpl; [done|].
  destruct (body image i) as [emitted m image'|emitted why] eqn:Hbody; simpl.
  - apply IH; [lia..|]. intros l Hl. apply Hc. lia.
  - intros [= ->]. apply (body_in_range Image W node msg marker_ids marker_corners
                            rvecs tvecs image i emitted); [..|exact Hbody].
    + apply lookup_lt_is_Some. lia.
    + apply lookup_lt_is_Some. lia.
    + apply lookup_lt_is_Some. lia.
    + apply Hc. lia.
Qed.

End LoopFacts.

(** ** More about one frame *)

Section FrameFacts.

Variable Image : Type.
Variable W : World Image.
Variable node : ArucoRos2Node.
Variable msg : ImageMsg Image.

Lemma leave_frame_infos (r : Loop Image) :
  infos (cb_events (leave_frame W msg r)) = infos (lp_events r).
Proof.
  unfold leave_frame. destruct (lp_exit r) as [[]|]; simpl;
    rewrite ?infos_app; simpl; by rewrite ?app_nil_r.
Qed.

(** A calibrated node logs at INFO level only the markers it detects. *)
Lemma image_callback_infos f :
  received_camera_info_ node = true ->
  f ∈ infos (cb_events (image_callback W node msg)) -> f = "Detected marker %d".
Proof.
  intros Hready. unfold image_callback, detect_and_locate. rewrite Hready. simpl.
  destruct (toCvCopy W msg) as [what|image]; [by intros ?%elem_of_nil|].
  destruct (aruco_dict_ node) as [dict|]; [|by intros ?%elem_of_nil].
  rewrite leave_frame_infos.
  destruct (detectMarkers W image dict) as [marker_corners [|id marker_ids]];
    [by intros ?%elem_of_nil|].
  destruct (estimatePoseSingleMarkers W marker_corners (narrow (marker_size_ node))
              (read_camera_matrix W node 0) (camera_distortion_ node)) as [rvecs tvecs].
  apply loop_infos.
Qed.

(** Every transform a frame broadcasts goes from the configured camera
    frame to the frame of a marker. *)
Lemma image_callback_broadcast_frames t :
  t ∈ broadcasts (cb_events (image_callback W node msg)) ->
  frame_id (geometry_msgs.header t) = camera_frame_ node
  ∧ ∃ id, geometry_msgs.child_frame_id t = marker_frame id.
Proof.
  destruct (image_callback_inv Image W node msg)
    as [(Hnone & _)|(image & marker_corners & marker_ids & rvecs & tvecs & Hobs)].
  { rewrite Hnone. by intros ?%elem_of_nil. }
  rewrite (image_callback_observes _ _ _ _ _ _ _ _ _ Hobs), leave_frame_broadcasts.
  intros [j Hj]%list_elem_of_lookup.
  destruct (loop_records Image W node msg marker_ids marker_corners rvecs tvecs
              (length marker_ids) 0 [] image) as (new & _ & _ & Hloc & _).
  destruct (Hloc j t Hj) as (id & rv & tv & _ & _ & _ & ->). simpl. eauto.
Qed.

Section Observed.

Variable image : Image.
Variable marker_corners : list (list cv.Point2f).
Variable marker_ids : list Z.
Variables rvecs tvecs : list cv.Row.
Hypothesis Hobs : observes W node msg image marker_corners marker_ids rvecs tvecs.

(** A marker array is never partial: when the callback publishes, the
    one array it publishes holds a record for every detected id, each
    with the stamp of the image and the frame "map", and every candidate
    has been broadcast. *)
Theorem published_array_complete :
  cb_outcome (image_callback W node msg) = Published ->
  published_marker_arrays (cb_events (image_callback W node msg))
  = [mkMarkerArray (mkHeader (now W 0) "map") (cb_markers (image_callback W node msg))]
  ∧ mk_id <$> cb_markers (image_callback W node msg) = marker_ids
  ∧ length (broadcasts (cb_events (image_callback W node msg))) = length marker_ids
  ∧ Forall (λ m, mk_header m = mkHeader (stamp (im_header msg)) "map")
           (cb_markers (image_callback W node msg)).
Proof.
  rewrite (image_callback_observes _ _ _ _ _ _ _ _ _ Hobs).
  set (r := marker_loop W node msg marker_ids marker_corners rvecs tvecs
                        (length marker_ids) 0 [] image).
  destruct (loop_publishes_nothing Image W node msg marker_ids marker_corners
              rvecs tvecs (length marker_ids) 0 [] image) as [_ Harrays].
  destruct (loop_records Image W node msg marker_ids marker_corners rvecs tvecs
              (length marker_ids) 0 [] image) as (new & Hnew & _ & _ & Hrec).
  fold r in Harrays, Hnew, Hrec. simpl in Hnew.
  rewrite leave_frame_broadcasts, leave_frame_markers.
  destruct (lp_exit r) as [why|] eqn:Hexit.
  { unfold leave_frame. rewrite Hexit. by destruct why. }
  intros _.
  destruct (loop_ran_to_end Image W node msg marker_ids marker_corners rvecs tvecs
              (length marker_ids) 0 [] image Hexit) as (Hm & Hb & _).
  fold r in Hm, Hb. simpl in Hm.
  split; [|split; [|split]].
  - unfold leave_frame. rewrite Hexit. simpl.
    by rewrite published_marker_arrays_app, Harrays.
  - rewrite Hnew in Hm |- *. apply list_eq. intros j. rewrite list_lookup_fmap.
    destruct (new !! j) as [m|] eqn:Hj; simpl.
    + destruct (Hrec j m Hj) as (t & map_to_camera & _ & corner & _ & _ & Hid & _).
      simpl in Hid. by rewrite Hid.
    + apply lookup_ge_None in Hj. rewrite Hm in Hj.
      by rewrite (lookup_ge_None_2 marker_ids j).
  - exact Hb.
  - rewrite Hnew. apply Forall_lookup. intros j m Hj.
    destruct (Hrec j m Hj) as (t & map_to_camera & _ & corner & _ & _ & _ & ->).
    reflexivity.
Qed.

(** The image a frame publishes is the decoded image with one axis
    drawn per detected marker, in detection order, from the marker's own
    pose rows, with the camera matrix as read through the node's header,
    the stored distortion, and half the marker size rounded to [float]. *)
Theorem published_image_annotated :
  cb_outcome (image_callback W node msg) = Published ->
  ∃ rvs tvs,
    length rvs = length marker_ids ∧ length tvs = length marker_ids
    ∧ take (length marker_ids) rvecs = Some <$> rvs
    ∧ take (length marker_ids) tvecs = Some <$> tvs
    ∧ published_images (cb_events (image_callback W node msg))
      = [mkImageMsg (im_header msg) "bgr8" (draw_axes W node image (zip rvs tvs))].
Proof.
  rewrite (image_callback_observes _ _ _ _ _ _ _ _ _ Hobs).
  set (r := marker_loop W node msg marker_ids marker_corners rvecs tvecs
                        (length marker_ids) 0 [] image).
  destruct (loop_publishes_nothing Image W node msg marker_ids marker_corners
              rvecs tvecs (length marker_ids) 0 [] image) as [Himages _].
  fold r in Himages.
  destruct (lp_exit r) as [why|] eqn:Hexit.
  { unfold leave_frame. rewrite Hexit. by destruct why. }
  intros _.
  destruct (loop_ran_to_end Image W node msg marker_ids marker_corners rvecs tvecs
              (length marker_ids) 0 [] image Hexit)
    as (_ & _ & rvs & tvs & Hrvs & Htvs & Hr & Ht & Himage).
  fold r in Himage. simpl in Hr, Ht.
  exists rvs, tvs. repeat (split; [done|]).
  unfold leave_frame. rewrite Hexit. simpl.
  by rewrite published_images_app, Himages, Himage.
Qed.

(** Records are index-aligned with the detector's output: the record
    stored at index i carries the i-th id and the pixel coordinates of the
    first corner of the i-th corner list. *)
Theorem record_of_candidate (i : nat) (m : Marker) :
  cb_markers (image_callback W node msg) !! i = Some m ->
  marker_ids !! i = Some (mk_id m)
  ∧ ∃ corner rest,
      marker_corners !! i = Some (corner :: rest)
      ∧ pixel_x m = cv.px corner ∧ pixel_y m = cv.py corner.
Proof.
  rewrite (image_callback_observes _ _ _ _ _ _ _ _ _ Hobs), leave_frame_markers.
  destruct (loop_records Image W node msg marker_ids marker_corners rvecs tvecs
              (length marker_ids) 0 [] image) as (new & Hnew & _ & _ & Hrec).
  simpl in Hnew. rewrite Hnew. intros Hm.
  destruct (Hrec i m Hm) as (t & map_to_camera & _ & corner & _ & Hcorner & Hid & Heq).
  simpl in Hid, Hcorner. split; [exact Hid|].
  destruct (marker_corners !! i) as [[|corner' rest]|]; simplify_eq/=.
  exists corner, rest. split; [done|]. by rewrite Heq.
Qed.

End Observed.

(** With the dictionary set and index-aligned answers of the detector and
    the estimator, every access of the callback is inside its container. *)
Theorem aligned_frame_in_bounds :
  is_Some (aruco_dict_ node) -> index_aligned W ->
  cb_outcome (image_callback W node msg) ≠ Aborted Fault.
Proof.
  intros [dict Hdict] [Hdetect Hestimate].
  unfold image_callback, detect_and_locate.
  destruct (received_camera_info_ node); simpl; [|done].
  destruct (toCvCopy W msg) as [what|image]; [done|]. rewrite Hdict.
  specialize (Hdetect image dict).
  destruct (detectMarkers W image dict) as [marker_corners marker_ids].
  destruct Hdetect as [Hlen Hnonempty]. simpl in Hlen, Hnonempty.
  destruct marker_ids as [|id marker_ids]; [done|].
  specialize (Hestimate marker_corners (narrow (marker_size_ node)) (read_camera_matrix W node 0)
                        (camera_distortion_ node)).
  destruct (estimatePoseSingleMarkers W marker_corners (narrow (marker_size_ node))
              (read_camera_matrix W node 0) (camera_distortion_ node)) as [rvecs tvecs].
  destruct Hestimate as [Hr Ht]. simpl in Hr, Ht.
  pose proof (loop_in_bounds Image W node msg (id :: marker_ids) marker_corners
                rvecs tvecs (length (id :: marker_ids)) 0 [] image) as Hloop.
  unfold leave_frame.
  destruct (lp_exit _) as [[]|]; try done.
  exfalso. apply Hloop; try (simpl in *; lia); [|done].
  intros l Hl.
  destruct (lookup_lt_is_Some_2 marker_corners l) as [corners Hcorners];
    [simpl in *; lia|].
  rewrite Hcorners. simpl.
  pose proof (proj1 (Forall_lookup _ _) Hnonempty l corners Hcorners).
  by destruct corners.
Qed.

End FrameFacts.

(** ** Whole runs *)

Lemma dictNameToEnum_inj (a b : string) (dict : cv.PREDEFINED_DICTIONARY_NAME) :
  dictNameToEnum a = inr dict -> dictNameToEnum b = inr dict -> a = b.
Proof.
  unfold dictNameToEnum, dict_name_map. intros Ha Hb.
  destruct (list_to_map dict_name_table !! a) as [da|] eqn:Hda; [|done].
  destruct (list_to_map dict_name_table !! b) as [db|] eqn:Hdb; [|done].
  injection Ha as ->. injection Hb as ->.
  apply elem_of_list_to_map_2, list_elem_of_lookup in Hda as [i Hi].
  apply elem_of_list_to_map_2, list_elem_of_lookup in Hdb as [j Hj].
  assert (NoDup (dict_name_table.*2)) as Hnodup
    by (apply (bool_decide_unpack _); vm_compute; exact I).
  assert (i = j) as ->.
  { apply (NoDup_lookup _ i j dict Hnodup); rewrite list_lookup_fmap.
    - by rewrite Hi.
    - by rewrite Hj. }
  rewrite Hi in Hj. by injection Hj.
Qed.

(** No two names of the table select the same dictionary: distinct
    accepted names give distinct enumerators. *)
Theorem distinct_names_distinct_dictionaries (a b : string)
    (da db : cv.PREDEFINED_DICTIONARY_NAME) :
  a ≠ b -> dictNameToEnum a = inr da -> dictNameToEnum b = inr db -> da ≠ db.
Proof. intros Hne Ha Hb ->. by apply Hne, (dictNameToEnum_inj a b db). Qed.

Section RunFacts.

Variable Image : Type.

(** What [main] hands to the executor. *)
Lemma main_Spinning (p : Parameters) (node : ArucoRos2Node) :
  (main Image p).2 = Spinning node ->
  received_camera_info_ node = false
  ∧ camera_frame_ node = p_camera_frame p
  ∧ marker_size_ node = p_marker_size p
  ∧ ∃ dict, dictNameToEnum (p_dictionary p) = inr dict ∧ aruco_dict_ node = Some dict.
Proof.
  unfold main, initialize. cbn [construct dictionary_].
  destruct (dictNameToEnum (p_dictionary p)) as [e|dict]; cbn [snd]; [done|].
  intros [= <-]. repeat split. by exists dict.
Qed.

(** A calibration message changes the calibration and nothing else. *)
Lemma camera_info_callback_parameters garbage node msg :
  let node' := ci_node (camera_info_callback Image garbage node msg) in
  marker_size_ node' = marker_size_ node
  ∧ camera_frame_ node' = camera_frame_ node
  ∧ image_topic_ node' = image_topic_ node
  ∧ camera_info_topic_ node' = camera_info_topic_ node
  ∧ dictionary_ node' = dictionary_ node
  ∧ aruco_dict_ node' = aruco_dict_ node.
Proof. simpl. rewrite camera_info_callback_node. by destruct (ci_finish _). Qed.

Lemma camera_info_callback_returned garbage node msg :
  ci_finish (camera_info_callback Image garbage node msg) = Returned ->
  received_camera_info_ (ci_node (camera_info_callback Image garbage node msg)) = true.
Proof. intros Hfinish. rewrite camera_info_callback_node. simpl. by rewrite Hfinish. Qed.

Lemma camera_info_callback_calibrated garbage node msg :
  received_camera_info_ node = true ->
  ci_finish (camera_info_callback Image garbage node msg) = Returned
  ∧ ci_events (camera_info_callback Image garbage node msg) = [].
Proof.
  intros Hready. unfold camera_info_callback. rewrite store_calibration_spec. simpl.
  by rewrite Hready.
Qed.

Lemma camera_info_callback_infos garbage node msg f :
  f ∈ infos (ci_events (camera_info_callback Image garbage node msg)) ->
  f = "Received camera info." ∨ f = camera_info_format.
Proof.
  unfold camera_info_callback. rewrite store_calibration_spec. simpl.
  destruct (received_camera_info_ node); simpl; [by intros ?%elem_of_nil|].
  destruct (d msg !! 0%nat), (d msg !! 1%nat), (d msg !! 2%nat),
           (d msg !! 3%nat), (d msg !! 4%nat); simpl;
    rewrite ?elem_of_cons, ?elem_of_nil; tauto.
Qed.

Lemma camera_info_callback_broadcasts garbage node msg :
  broadcasts (ci_events (camera_info_callback Image garbage node msg)) = [].
Proof.
  unfold camera_info_callback. rewrite store_calibration_spec. simpl.
  destruct (received_camera_info_ node); simpl; [done|].
  by destruct (d msg !! 0%nat), (d msg !! 1%nat), (d msg !! 2%nat),
              (d msg !! 3%nat), (d msg !! 4%nat).
Qed.

(** The events of a run that starts with [delivery]. *)
Lemma spin_cons_events (node : ArucoRos2Node) (delivery : Delivery Image)
    (rest : list (Delivery Image)) :
  ∃ first node' later,
    run_events (spin node (delivery :: rest)) = first ++ later
    ∧ match delivery with
      | CameraInfoDelivery garbage msg =>
        first = ci_events (camera_info_callback Image garbage node msg)
        ∧ node' = ci_node (camera_info_callback Image garbage node msg)
      | ImageDelivery W msg =>
        first = cb_events (image_callback W node msg) ∧ node' = node
      end
    ∧ (later = [] ∨ later = run_events (spin node' rest)).
Proof.
  destruct delivery as [garbage msg|W msg]; simpl.
  - destruct (ci_finish _); simpl.
    + eexists _, _, _. split; [reflexivity|]. split; [done|]. by right.
    + eexists _, _, []. rewrite app_nil_r. split; [reflexivity|]. split; [done|].
      by left.
  - destruct (cb_outcome _) as [| |[]|]; simpl;
      try (eexists _, _, _; split; [reflexivity|]; split; [done|]; by right).
    eexists _, _, []. rewrite app_nil_r. split; [reflexivity|]. split; [done|]. by left.
Qed.

(** Images never change the fields of the node. *)
Lemma spin_images_node (node : ArucoRos2Node) (deliveries : list (Delivery Image)) :
  Forall is_image deliveries -> run_node (spin node deliveries) = node.
Proof.
  induction 1 as [|[garbage msg|W msg] rest Himage _ IH]; simpl; [done..|].
  by destruct (cb_outcome _) as [| |[]|].
Qed.

(** Once calibrated, a node stays calibrated, and all it logs at INFO
    level is the detection of markers. *)
Lemma calibrated_run (node : ArucoRos2Node) (deliveries : list (Delivery Image)) :
  received_camera_info_ node = true ->
  received_camera_info_ (run_node (spin node deliveries)) = true
  ∧ ∀ f, f ∈ infos (run_events (spin node deliveries)) -> f = "Detected marker %d".
Proof.
  revert node. induction deliveries as [|[garbage msg|W msg] rest IH]; intros node Hready.
  - split; [done|]. simpl. by intros f ?%elem_of_nil.
  - simpl.
    destruct (camera_info_callback_calibrated garbage node msg Hready) as [Hfinish Hevents].
    rewrite Hfinish, Hevents. simpl.
    apply IH. by apply camera_info_callback_returned.
  - destruct (IH node Hready) as [IHnode IHinfos].
    pose proof (image_callback_infos Image W node msg) as Hinfos.
    simpl. destruct (cb_outcome _) as [| |[]|]; simpl;
      try (split; [done|]; intros f; rewrite infos_app, elem_of_app;
           intros [Hin|Hin]; [by apply Hinfos|by apply IHinfos]).
    split; [done|]. intros f Hin. by apply Hinfos.
Qed.

End RunFacts.

Section Runs.

Variable Image : Type.

(** Until a calibration arrives every frame is skipped: a run of image
    messages on the node [main] starts logs one waiting line per frame,
    publishes nothing, broadcasts nothing and leaves the node as it was. *)
Theorem uncalibrated_run_publishes_nothing (p : Parameters) (node : ArucoRos2Node)
    (deliveries : list (Delivery Image)) :
  (main Image p).2 = Spinning node ->
  Forall is_image deliveries ->
  run_events (spin node deliveries)
  = (λ _, Log INFO "Waiting for camera info." []) <$> deliveries
  ∧ published_marker_arrays (run_events (spin node deliveries)) = []
  ∧ published_images (run_events (spin node deliveries)) = []
  ∧ broadcasts (run_events (spin node deliveries)) = []
  ∧ run_node (spin node deliveries) = node
  ∧ run_faulted (spin node deliveries) = false.
Proof.
  intros Hmain Himages.
  destruct (main_Spinning Image p node Hmain) as (Hwaiting & _).
  assert (run_events (spin node deliveries)
          = (λ _, Log INFO "Waiting for camera info." []) <$> deliveries
          ∧ run_faulted (spin node deliveries) = false) as [Hevents Hfault].
  { induction Himages as [|[garbage msg|W msg] rest Himage _ IH]; [done..|].
    simpl. unfold image_callback. rewrite Hwaiting. simpl.
    destruct IH as [-> ->]. done. }
  rewrite Hevents. split; [done|].
  split; [|split; [|split; [|split]]]; [..|by apply spin_images_node|exact Hfault];
    clear; by induction deliveries.
Qed.

Lemma spin_broadcast_frames (node : ArucoRos2Node) (deliveries : list (Delivery Image))
    (t : geometry_msgs.TransformStamped) :
  t ∈ broadcasts (run_events (spin node deliveries)) ->
  frame_id (geometry_msgs.header t) = camera_frame_ node
  ∧ ∃ id, geometry_msgs.child_frame_id t = marker_frame id.
Proof.
  revert node. induction deliveries as [|delivery rest IH]; intros node.
  { simpl. by intros ?%elem_of_nil. }
  destruct (spin_cons_events Image node delivery rest)
    as (first & node' & later & -> & Hfirst & Hlater).
  rewrite broadcasts_app, elem_of_app.
  destruct delivery as [garbage msg|W msg]; destruct Hfirst as [-> ->].
  - rewrite camera_info_callback_broadcasts.
    intros [?%elem_of_nil|Hin]; [done|].
    destruct Hlater as [->| ->]; [by apply elem_of_nil in Hin|].
    destruct (camera_info_callback_parameters Image garbage node msg) as (_ & <- & _).
    by apply IH.
  - intros [Hin|Hin]; [by apply (image_callback_broadcast_frames Image W node msg)|].
    destruct Hlater as [->| ->]; [by apply elem_of_nil in Hin|]. by apply IH.
Qed.

(** Whatever messages arrive, every transform the process broadcasts
    goes from the camera frame given as parameter to the frame of a
    marker: no callback changes the configured frame. *)
Theorem run_broadcast_frames (p : Parameters) (node : ArucoRos2Node)
    (deliveries : list (Delivery Image)) (t : geometry_msgs.TransformStamped) :
  (main Image p).2 = Spinning node ->
  t ∈ broadcasts (run_events (spin node deliveries)) ->
  frame_id (geometry_msgs.header t) = p_camera_frame p
  ∧ ∃ id, geometry_msgs.child_frame_id t = marker_frame id.
Proof.
  intros Hmain Hin.
  destruct (main_Spinning Image p node Hmain) as (_ & <- & _).
  by apply (spin_broadcast_frames node deliveries).
Qed.

(** Calibration sticks: after a calibration message whose callback
    returned, no later frame of the run is skipped for want of
    calibration, whatever calibration messages follow. *)
Theorem calibration_sticks (node : ArucoRos2Node) (garbage : nat -> float)
    (msg : CameraInfo) (deliveries : list (Delivery Image)) :
  ci_finish (camera_info_callback Image garbage node msg) = Returned ->
  let run := spin node (CameraInfoDelivery garbage msg :: deliveries) in
  ("Waiting for camera info." ∉ infos (run_events run))
  ∧ received_camera_info_ (run_node run) = true.
Proof.
  intros Hfinish. simpl. rewrite Hfinish. simpl.
  destruct (calibrated_run Image _ deliveries
              (camera_info_callback_returned Image garbage node msg Hfinish))
    as [Hready Hinfos].
  split; [|exact Hready].
  rewrite infos_app, elem_of_app. intros [Hin|Hin].
  - apply camera_info_callback_infos in Hin as [Heq|Heq]; discriminate Heq.
  - apply Hinfos in Hin. discriminate Hin.
Qed.

Lemma calibrated_run_quiet (node : ArucoRos2Node) (deliveries : list (Delivery Image)) :
  received_camera_info_ node = true ->
  filter (λ f, f = "Received camera info.")
         (infos (run_events (spin node deliveries))) = [].
Proof.
  intros Hready.
  destruct (calibrated_run Image node deliveries Hready) as [_ Hinfos].
  induction (infos _) as [|f l IH]; [done|].
  rewrite filter_cons_False.
  - apply IH. intros g Hg. apply Hinfos. by right.
  - rewrite (Hinfos f) by left. discriminate.
Qed.

(** The calibration is announced once: however many calibration and
    image messages a run holds, "Received camera info." is logged at most
    once. *)
Theorem calibration_logged_once (node : ArucoRos2Node)
    (deliveries : list (Delivery Image)) :
  (length (filter (λ f, f = "Received camera info.")
                  (infos (run_events (spin node deliveries)))) ≤ 1)%nat.
Proof.
  revert node. induction deliveries as [|delivery rest IH]; intros node.
  { simpl. lia. }
  destruct (received_camera_info_ node) eqn:Hready.
  { rewrite calibrated_run_quiet by done. simpl. lia. }
  destruct delivery as [garbage msg|W msg]; simpl.
  - destruct (ci_finish _) eqn:Hfinish; simpl.
    + rewrite infos_app, filter_app, length_app,
              (calibrated_run_quiet _ rest
                 (camera_info_callback_returned Image garbage node msg Hfinish)).
      revert Hfinish. unfold camera_info_callback. rewrite store_calibration_spec.
      simpl. rewrite Hready. simpl.
      by destruct (d msg !! 0%nat), (d msg !! 1%nat), (d msg !! 2%nat),
                  (d msg !! 3%nat), (d msg !! 4%nat).
    + revert Hfinish. unfold camera_info_callback. rewrite store_calibration_spec.
      simpl. rewrite Hready. simpl.
      by destruct (d msg !! 0%nat), (d msg !! 1%nat), (d msg !! 2%nat),
                  (d msg !! 3%nat), (d msg !! 4%nat).
  - unfold image_callback. rewrite Hready. simpl. by apply IH.
Qed.

(** A run over two batches of messages is the run over the first
    followed, unless that one faulted, by the run over the second from the
    fields the first left. *)
Lemma spin_app (node : ArucoRos2Node) (first second : list (Delivery Image)) :
  spin node (first ++ second)
  = if run_faulted (spin node first) then spin node first
    else mkRun (run_events (spin node first)
                ++ run_events (spin (run_node (spin node first)) second))
               (run_node (spin (run_node (spin node first)) second))
               (run_faulted (spin (run_node (spin node first)) second)).
Proof.
  revert node. induction first as [|[garbage msg|W msg] rest IH]; intros node; simpl.
  - by destruct (spin node second).
  - destruct (ci_finish _); [|done]. simpl. rewrite IH.
    destruct (run_faulted (spin _ rest)) eqn:Hfaulted; simpl;
      [by rewrite Hfaulted|by rewrite app_assoc].
  - destruct (cb_outcome _) as [| |[]|]; simpl; rewrite ?IH;
      try (destruct (run_faulted (spin node rest)) eqn:Hfaulted; simpl;
           [by rewrite Hfaulted|by rewrite app_assoc]).
    done.
Qed.

(** Last write wins: when a run does not fault, the calibration the node
    holds at its end is that of the last calibration message: its
    distortion coefficients, an empty list stored as four zeros, and for
    the camera matrix no values at all but a header over the place where
    the [k] of that message was. Images in between or after do not touch
    it. *)
Theorem last_calibration_wins (node : ArucoRos2Node)
    (before after : list (Delivery Image)) (garbage : nat -> float) (msg : CameraInfo) :
  Forall is_image after ->
  let run := spin node (before ++ CameraInfoDelivery garbage msg :: after) in
  run_faulted run = false ->
  camera_matrix_ (run_node run) = cv.header_over (k_data msg)
  ∧ (∀ (W : World Image) (nth : nat),
       read_camera_matrix W (run_node run) nth = memory W nth (k_data msg))
  ∧ camera_distortion_ (run_node run)
    = match d msg with [] => [0; 0; 0; 0]%float | _ :: _ => d msg end
  ∧ received_camera_info_ (run_node run) = true.
Proof.
  intros Himages. simpl. rewrite spin_app.
  destruct (run_faulted (spin node before)) eqn:Hbefore; [by rewrite Hbefore|].
  simpl. destruct (ci_finish _) eqn:Hfinish; simpl; [|done].
  intros _. rewrite (spin_images_node Image _ after Himages).
  rewrite camera_info_callback_node. simpl. rewrite Hfinish. simpl.
  by destruct (d msg).
Qed.

End Runs.

(** ** The further properties on the concrete frames *)

Lemma published_array_complete_witness :
  published_marker_arrays
    (cb_events (image_callback Scenario.world_ok Scenario.calibrated Scenario.frame))
  = [mkMarkerArray (mkHeader (now Scenario.world_ok 0) "map")
       (cb_markers (image_callback Scenario.world_ok Scenario.calibrated Scenario.frame))]
  ∧ mk_id <$> cb_markers (image_callback Scenario.world_ok Scenario.calibrated Scenario.frame)
    = [7; 12]%Z
  ∧ length (broadcasts
              (cb_events (image_callback Scenario.world_ok Scenario.calibrated
                                         Scenario.frame)))
    = length [7; 12]%Z
  ∧ Forall (λ m, mk_header m = mkHeader (stamp (im_header Scenario.frame)) "map")
           (cb_markers (image_callback Scenario.world_ok Scenario.calibrated
                                       Scenario.frame)).
Proof.
  exact (published_array_complete Scenario.Picture Scenario.world_ok Scenario.calibrated
           Scenario.frame [] Scenario.corners_7_12 [7; 12]%Z
           [Some Scenario.zero3; Some Scenario.zero3]
           [Some Scenario.t7; Some Scenario.t12] observes_ok eq_refl).
Defined.

Lemma published_image_annotated_witness :
  (published_images
     (cb_events (image_callback Scenario.world_ok Scenario.calibrated Scenario.frame))
   = [mkImageMsg (im_header Scenario.frame) "bgr8"
        [ (Scenario.zero3, Scenario.t7, 0x1.99999ap-5%float);
          (Scenario.zero3, Scenario.t12, 0x1.99999ap-5%float) ]]
   ∧ (marker_size_ Scenario.calibrated * 0.5)%float = 0x1.999999999999ap-5%float
   ∧ read_camera_matrix Scenario.world_ok Scenario.calibrated 1
     = [525; 0; 320; 0; 525; 240; 0; 0; 1]%float)
  ∧ ∃ rvs tvs,
      length rvs = length [7; 12]%Z ∧ length tvs = length [7; 12]%Z
      ∧ take (length [7; 12]%Z) [Some Scenario.zero3; Some Scenario.zero3] = Some <$> rvs
      ∧ take (length [7; 12]%Z) [Some Scenario.t7; Some Scenario.t12] = Some <$> tvs
      ∧ published_images
          (cb_events (image_callback Scenario.world_ok Scenario.calibrated Scenario.frame))
        = [mkImageMsg (im_header Scenario.frame) "bgr8"
             (draw_axes Scenario.world_ok Scenario.calibrated [] (zip rvs tvs))].
Proof.
  split; [by vm_compute|].
  exact (published_image_annotated Scenario.Picture Scenario.world_ok Scenario.calibrated
           Scenario.frame [] Scenario.corners_7_12 [7; 12]%Z
           [Some Scenario.zero3; Some Scenario.zero3]
           [Some Scenario.t7; Some Scenario.t12] observes_ok eq_refl).
Defined.

Lemma empty_pose_matrix_aborts_at_first_candidate_witness :
  image_callback Scenario.world_no_columns Scenario.calibrated Scenario.frame
  = mkCallback [Log WARN "Pose estimation failed for marker." []] []
               (Aborted PoseEstimationFailed).
Proof.
  apply (empty_pose_matrix_aborts_at_first_candidate Scenario.Picture
           Scenario.world_no_columns Scenario.calibrated Scenario.frame []
           Scenario.corners_7_12 [7; 12]%Z
           [Some Scenario.zero3; Some Scenario.zero3] [None; None] 1
           observes_no_columns).
  - discriminate.
  - right. by repeat constructor.
  - left. by repeat constructor.
  - exists (Some Scenario.zero3), None. by repeat split.
Defined.

Lemma record_of_candidate_witness :
  [7; 12]%Z !! 1%nat = Some (mk_id Scenario.marker_12)
  ∧ ∃ corner rest,
      Scenario.corners_7_12 !! 1%nat = Some (corner :: rest)
      ∧ pixel_x Scenario.marker_12 = cv.px corner
      ∧ pixel_y Scenario.marker_12 = cv.py corner.
Proof.
  exact (record_of_candidate Scenario.Picture Scenario.world_ok Scenario.calibrated
           Scenario.frame [] Scenario.corners_7_12 [7; 12]%Z
           [Some Scenario.zero3; Some Scenario.zero3]
           [Some Scenario.t7; Some Scenario.t12] observes_ok 1 Scenario.marker_12
           eq_refl).
Defined.

Lemma world_aligned_index_aligned : index_aligned Scenario.world_aligned.
Proof.
  split.
  - intros image dict. simpl. split; [done|].
    unfold Scenario.corners_7_12. repeat (constructor; [discriminate|]). constructor.
  - intros marker_corners size camera_matrix distortion. simpl.
    by rewrite !length_fmap.
Defined.

Lemma aligned_frame_in_bounds_witness :
  cb_outcome (image_callback Scenario.world_aligned Scenario.calibrated Scenario.frame)
  ≠ Aborted Fault
  ∧ cb_outcome (image_callback Scenario.world_aligned Scenario.calibrated Scenario.frame)
    = Published.
Proof.
  split; [|reflexivity].
  apply (aligned_frame_in_bounds Scenario.Picture Scenario.world_aligned
           Scenario.calibrated Scenario.frame).
  - by eexists.
  - exact world_aligned_index_aligned.
Defined.

Lemma distinct_names_distinct_dictionaries_witness :
  "DICT_4X4_50" ≠ "DICT_5X5_50" ∧ cv.DICT_4X4_50 ≠ cv.DICT_5X5_50.
Proof.
  split; [discriminate|].
  apply (distinct_names_distinct_dictionaries "DICT_4X4_50" "DICT_5X5_50");
    [discriminate|reflexivity|reflexivity].
Defined.

Lemma main_default_fresh :
  (main Scenario.Picture default_parameters).2 = Spinning Scenario.fresh.
Proof. vm_compute. reflexivity. Defined.

Lemma uncalibrated_run_publishes_nothing_witness :
  run_events (spin Scenario.fresh Scenario.ten_frames)
  = (λ _, Log INFO "Waiting for camera info." []) <$> Scenario.ten_frames
  ∧ published_marker_arrays (run_events (spin Scenario.fresh Scenario.ten_frames)) = []
  ∧ published_images (run_events (spin Scenario.fresh Scenario.ten_frames)) = []
  ∧ broadcasts (run_events (spin Scenario.fresh Scenario.ten_frames)) = []
  ∧ run_node (spin Scenario.fresh Scenario.ten_frames) = Scenario.fresh
  ∧ run_faulted (spin Scenario.fresh Scenario.ten_frames) = false.
Proof.
  apply (uncalibrated_run_publishes_nothing Scenario.Picture default_parameters
           Scenario.fresh Scenario.ten_frames main_default_fresh).
  unfold Scenario.ten_frames. simpl. by repeat constructor.
Defined.

Lemma run_broadcast_frames_witness :
  let t := make_marker_transform Scenario.world_aligned Scenario.calibrated
             (now Scenario.world_aligned 1) 7 Scenario.zero3 Scenario.t7 in
  t ∈ broadcasts (run_events (spin Scenario.fresh Scenario.session))
  ∧ frame_id (geometry_msgs.header t) = p_camera_frame default_parameters
  ∧ ∃ id, geometry_msgs.child_frame_id t = marker_frame id.
Proof.
  intros t.
  assert (t ∈ broadcasts (run_events (spin Scenario.fresh Scenario.session))) as Hin.
  { apply list_elem_of_lookup. by exists 0%nat. }
  split; [exact Hin|].
  exact (run_broadcast_frames Scenario.Picture default_parameters Scenario.fresh
           Scenario.session t main_default_fresh Hin).
Defined.

Lemma calibration_sticks_witness :
  let run := spin Scenario.fresh
                  (CameraInfoDelivery Scenario.garbage Scenario.plumb_bob
                   :: [ ImageDelivery Scenario.world_aligned Scenario.frame;
                        CameraInfoDelivery Scenario.garbage Scenario.undistorted;
                        ImageDelivery Scenario.world_aligned Scenario.frame ]) in
  ("Waiting for camera info." ∉ infos (run_events run))
  ∧ received_camera_info_ (run_node run) = true.
Proof.
  exact (calibration_sticks Scenario.Picture Scenario.fresh Scenario.garbage
           Scenario.plumb_bob
           [ ImageDelivery Scenario.world_aligned Scenario.frame;
             CameraInfoDelivery Scenario.garbage Scenario.undistorted;
             ImageDelivery Scenario.world_aligned Scenario.frame ] eq_refl).
Defined.

Lemma last_calibration_wins_witness :
  let run := spin Scenario.fresh Scenario.session in
  camera_matrix_ (run_node run) = cv.header_over 2048
  ∧ (∀ (W : World Scenario.Picture) (nth : nat),
       read_camera_matrix W (run_node run) nth = memory W nth 2048)
  ∧ camera_distortion_ (run_node run) = [0; 0; 0; 0]%float
  ∧ received_camera_info_ (run_node run) = true.
Proof.
  apply (last_calibration_wins Scenario.Picture Scenario.fresh
           [ ImageDelivery Scenario.world_aligned Scenario.frame;
             CameraInfoDelivery Scenario.garbage Scenario.plumb_bob;
             ImageDelivery Scenario.world_aligned Scenario.frame ]
           [ImageDelivery Scenario.world_aligned Scenario.frame]
           Scenario.garbage Scenario.undistorted).
  - by repeat constructor.
  - reflexivity.
Defined.
